(** * najd-gateway: the message-exchange and feedback-reconciliation pipeline

    A shallow embedding of [main.py]: the chat pipeline [process_message],
    the provider call [query_azure_endpoint], the feedback reconciler
    [save_feedback] and the two endpoints, over an explicit model of the
    Python values they handle, of the exceptions they raise and catch, and of
    the document collection they write to. *)

From Stdlib Require Import ZArith List String Ascii Bool Lia.
Import ListNotations.
Open Scope string_scope.
Open Scope list_scope.
Set Warnings "-register-all".

(** ** Python values *)

Module PyVal.

(** The values that flow through the gateway: JSON bodies, request
    dictionaries and stored documents.  [VDatetime t] is a [datetime],
    as the instant [t] counted in microseconds.  [VIsoStr t] is the [str]
    returned by [datetime.isoformat()] on the instant [t]: that text and the
    instant determine each other, so the text is kept as the instant it
    writes.  [VFloat m e] is the literal [m * 10^e].  A [dict] keeps its
    keys in insertion order, as Python and BSON documents do. *)
Inductive value : Type :=
| VNone
| VBool (b : bool)
| VInt (z : Z)
| VFloat (m e : Z)
| VStr (s : string)
| VIsoStr (t : Z)
| VDatetime (t : Z)
| VList (l : list value)
| VDict (d : list (string * value)).

Definition dict : Type := list (string * value).

(** Induction that also reaches the elements of a list and the values of a
    dictionary. *)
Section value_nested_ind.
Variable P : value -> Prop.
Hypothesis HNone : P VNone.
Hypothesis HBool : forall b, P (VBool b).
Hypothesis HInt : forall z, P (VInt z).
Hypothesis HFloat : forall m e, P (VFloat m e).
Hypothesis HStr : forall s, P (VStr s).
Hypothesis HIso : forall t, P (VIsoStr t).
Hypothesis HDatetime : forall t, P (VDatetime t).
Hypothesis HList : forall l, Forall P l -> P (VList l).
Hypothesis HDict : forall d, Forall (fun kv => P (snd kv)) d -> P (VDict d).

Fixpoint value_nested_ind (v : value) : P v :=
  match v with
  | VNone => HNone
  | VBool b => HBool b
  | VInt z => HInt z
  | VFloat m e => HFloat m e
  | VStr s => HStr s
  | VIsoStr t => HIso t
  | VDatetime t => HDatetime t
  | VList l =>
      HList l
        ((fix all (l : list value) : Forall P l :=
            match l with
            | [] => Forall_nil P
            | x :: r => Forall_cons x (value_nested_ind x) (all r)
            end) l)
  | VDict d =>
      HDict d
        ((fix all (d : dict) : Forall (fun kv => P (snd kv)) d :=
            match d with
            | [] => Forall_nil _
            | kv :: r =>
                Forall_cons kv (value_nested_ind (snd kv)) (all r)
            end) d)
  end.
End value_nested_ind.

(** Structural equality of values, the [==] of Python on these shapes. *)
Fixpoint value_eqb (a b : value) : bool :=
  match a, b with
  | VNone, VNone => true
  | VBool x, VBool y => Bool.eqb x y
  | VInt x, VInt y => Z.eqb x y
  | VFloat m e, VFloat m' e' => Z.eqb m m' && Z.eqb e e'
  | VStr x, VStr y => String.eqb x y
  | VIsoStr x, VIsoStr y => Z.eqb x y
  | VDatetime x, VDatetime y => Z.eqb x y
  | VList l, VList l' =>
      (fix go (l l' : list value) : bool :=
         match l, l' with
         | [], [] => true
         | x :: r, y :: r' => value_eqb x y && go r r'
         | _, _ => false
         end) l l'
  | VDict d, VDict d' =>
      (fix go (d d' : dict) : bool :=
         match d, d' with
         | [], [] => true
         | (k, x) :: r, (k', y) :: r' =>
             String.eqb k k' && value_eqb x y && go r r'
         | _, _ => false
         end) d d'
  | _, _ => false
  end.

(** Equality of dictionaries entry by entry, in order. *)
Definition dict_eqb (d d' : dict) : bool := value_eqb (VDict d) (VDict d').

(** [d[k]] read as an option: the first binding of [k]. *)
Fixpoint lookup (k : string) (d : dict) : option value :=
  match d with
  | [] => None
  | (k', v) :: r => if String.eqb k k' then Some v else lookup k r
  end.

(** [d[k] = v]: an existing key keeps its place, a new key goes last. *)
Fixpoint assign (k : string) (v : value) (d : dict) : dict :=
  match d with
  | [] => [(k, v)]
  | (k', v') :: r =>
      if String.eqb k k' then (k, v) :: r else (k', v') :: assign k v r
  end.

Definition is_str (v : value) : bool :=
  match v with
  | VStr _ | VIsoStr _ => true
  | _ => false
  end.

End PyVal.
Import PyVal.

(** ** Exceptions, the outside world and the effect monad *)

Module Effects.

(** The exceptions that can reach the handlers of [main.py].
    [TransportError] stands for the timeouts and connection failures that
    [client.post] raises; it and [HTTPStatusError] are the subclasses of
    [httpx.HTTPError] met here, every other constructor is a plain
    [Exception]. *)
Inductive exn : Type :=
| TransportError
| HTTPStatusError (status : Z)
| JSONDecodeError
| AttributeError (attr : string)
| KeyError (key : string)
| PyMongoError
| HTTPException (status_code : Z) (detail : string).

(** [isinstance(e, httpx.HTTPError)]. *)
Definition isinstance_HTTPError (e : exn) : bool :=
  match e with
  | TransportError | HTTPStatusError _ => true
  | _ => false
  end.

(** What one [POST] to the provider comes to: [client.post] raises, or it
    hands back a response that [raise_for_status] rejects, or one that it
    accepts and whose body is JSON ([Some]) or not ([None]). *)
Inductive http_reply : Type :=
| PostRaises
| Rejected (status : Z)
| Accepted (body : option value).

(** The parts of the world the gateway does not control: the credential
    read at start-up, the provider behind [AZURE_ENDPOINT] (a reply for each
    url, header set and JSON payload), the successive readings of the clock,
    and which operations on the collection the driver fails (by their rank
    among the operations issued). *)
Record Env : Type := mkEnv {
  AZURE_API_KEY : option string;
  provider : string -> dict -> value -> http_reply;
  utcnow_at : nat -> Z;
  db_fault : nat -> bool
}.

(** The operations issued to the collection. *)
Inductive db_op : Type :=
| OpInsert (doc : dict)
| OpUpdate (filter : dict) (set_fields : dict).

Inductive level : Type := INFO | WARNING | ERROR.

(** An object formatted into an f-string. *)
Inductive fmt_arg : Type :=
| FExn (e : exn)
| FVal (v : value).

(** What the process writes for operators: [print] and [logger] calls, an
    f-string kept as its text before the hole, the object in the hole and
    the text after it. *)
Inductive event : Type :=
| Print (text : string)
| Log (lvl : level) (before : string) (arg : fmt_arg) (after : string).

(** The state the code acts on: the documents of [collection], the
    operations issued to it so far (failed ones included), the operator
    journal, the number of clock readings taken, and the chunks yielded to
    the response stream. *)
Record World : Type := mkWorld {
  docs : list dict;
  db_log : list db_op;
  journal : list event;
  ticks : nat;
  stream : list value
}.

Inductive outcome (A : Type) : Type :=
| Ret (a : A)
| Raise (e : exn).
Arguments Ret {A} a.
Arguments Raise {A} e.

(** A computation returns or raises, and in both cases leaves a world. *)
Definition M (A : Type) : Type := World -> outcome A * World.

Definition ret {A} (a : A) : M A := fun w => (Ret a, w).

Definition raise {A} (e : exn) : M A := fun w => (Raise e, w).

Definition bind {A B} (c : M A) (k : A -> M B) : M B :=
  fun w =>
    match c w with
    | (Ret a, w') => k a w'
    | (Raise e, w') => (Raise e, w')
    end.

(** [try: body except Exception as e: handler e]. *)
Definition try_except {A} (body : M A) (handler : exn -> M A) : M A :=
  fun w =>
    match body w with
    | (Ret a, w') => (Ret a, w')
    | (Raise e, w') => handler e w'
    end.

Definition lift {A} (o : outcome A) : M A := fun w => (o, w).

Definition emit (ev : event) : M unit :=
  fun w => (Ret tt, mkWorld (docs w) (db_log w) (journal w ++ [ev])
                            (ticks w) (stream w)).

Definition print (text : string) : M unit := emit (Print text).

Definition logger_info (before : string) (arg : fmt_arg) (after : string) :=
  emit (Log INFO before arg after).

Definition logger_warning (before : string) (arg : fmt_arg) (after : string) :=
  emit (Log WARNING before arg after).

Definition logger_error (before : string) (arg : fmt_arg) (after : string) :=
  emit (Log ERROR before arg after).

(** [yield v] in the body of the generator. *)
Definition yield (v : value) : M unit :=
  fun w => (Ret tt, mkWorld (docs w) (db_log w) (journal w) (ticks w)
                            (stream w ++ [v])).

(** [datetime.utcnow()]: the next reading of the clock. *)
Definition utcnow (env : Env) : M Z :=
  fun w => (Ret (utcnow_at env (ticks w)),
            mkWorld (docs w) (db_log w) (journal w) (S (ticks w)) (stream w)).

(** [d[k]], raising [KeyError] on a missing key. *)
Definition getitem (d : dict) (k : string) : M value :=
  match lookup k d with
  | Some v => ret v
  | None => raise (KeyError k)
  end.

(** [v.get(k, default)]: only a [dict] has the method. *)
Definition py_get (v : value) (k : string) (default : value) : M value :=
  match v with
  | VDict d =>
      match lookup k d with
      | Some x => ret x
      | None => ret default
      end
  | _ => raise (AttributeError "get")
  end.

End Effects.
Import Effects.

Declare Scope py_scope.
Delimit Scope py_scope with py.
Notation "x <- c ;; k" := (bind c (fun x => k))
  (at level 61, c at next level, right associativity) : py_scope.
Notation "c ;; k" := (bind c (fun _ => k))
  (at level 61, right associativity) : py_scope.
Open Scope py_scope.

(** ** The document collection *)

Module Mongo.

(** An equality condition [{field: q}] of a filter against what a document
    stores under [field]: the stored value equals [q], or is an array with
    an element equal to [q]; a missing field is matched by [None] only. *)
Definition field_matches (stored : option value) (q : value) : bool :=
  match stored with
  | None => value_eqb q VNone
  | Some s =>
      value_eqb s q ||
      match s with
      | VList l => existsb (fun x => value_eqb x q) l
      | _ => false
      end
  end.

(** A document passes a filter when it meets every condition of it. *)
Definition matches (filter doc : dict) : bool :=
  forallb (fun kq => field_matches (lookup (fst kq) doc) (snd kq)) filter.

(** [{"$set": fields}] applied to a document, field by field. *)
Definition apply_set (fields doc : dict) : dict :=
  fold_left (fun d kv => assign (fst kv) (snd kv) d) fields doc.

Record UpdateResult : Type := mkUpdateResult {
  matched_count : Z;
  modified_count : Z
}.

(** [update_one] on the documents in their natural order: the first
    document that passes the filter receives the [$set]; it counts as
    matched, and as modified only when the [$set] changed it. *)
Fixpoint update_first (filter fields : dict) (ds : list dict)
  : list dict * UpdateResult :=
  match ds with
  | [] => ([], mkUpdateResult 0 0)
  | d :: r =>
      if matches filter d then
        let d' := apply_set fields d in
        (d' :: r, mkUpdateResult 1 (if dict_eqb d' d then 0 else 1))
      else
        let (r', res) := update_first filter fields r in
        (d :: r', res)
  end.

(** Every operation is recorded in [db_log] as it is issued; when the
    driver fails it the documents stay as they were and [PyMongoError] is
    raised.  The identifier the driver adds to an inserted document is not
    represented: the gateway never reads it. *)
Definition issue (env : Env) (op : db_op) (w : World) : bool * World :=
  (db_fault env (List.length (db_log w)),
   mkWorld (docs w) (db_log w ++ [op]) (journal w) (ticks w) (stream w)).

Definition insert_one (env : Env) (doc : dict) : M unit :=
  fun w =>
    let (failed, w1) := issue env (OpInsert doc) w in
    if failed then (Raise PyMongoError, w1)
    else (Ret tt, mkWorld (docs w1 ++ [doc]) (db_log w1) (journal w1)
                          (ticks w1) (stream w1)).

Definition update_one (env : Env) (filter fields : dict) : M UpdateResult :=
  fun w =>
    let (failed, w1) := issue env (OpUpdate filter fields) w in
    if failed then (Raise PyMongoError, w1)
    else
      let (ds, res) := update_first filter fields (docs w1) in
      (Ret res, mkWorld ds (db_log w1) (journal w1) (ticks w1) (stream w1)).

End Mongo.
Import Mongo.

(** ** The gateway: [main.py] *)

Module Gateway.

Definition dquote : string := String (ascii_of_nat 34) EmptyString.
Definition newline : string := String (ascii_of_nat 10) EmptyString.

Definition AZURE_ENDPOINT : string :=
  "https://najd-ml-sweden-c-hskon.swedencentral.inference.ml.azure.com/score".

Definition INSTRUCTIONS : string :=
  ("أنتي  " ++
  dquote ++
  "نجد" ++
  dquote ++
  " المساعدة الذكية لخدمة الموظفين الخاصة بشركة " ++
  dquote ++
  "علم" ++
  dquote ++
  " من الذكاء الاصطناعي تم بناؤك للإجابة على الأسئلة حول الخدمات الداخلية لشركة علم، تعمل انظمة الموظفين في علم على اسهل، اسهل هي منصة (موقع) خاصة بشؤون خدمات الموظفين وطلباتهم واغلب الخدمات تعمل عن طريق اسهل. اجابتك تكون بناًء على المعلومات فقط اذا لم تجد الجواب في المعلومات اجب بأنك لم تجدها ضمن المعلومات ." ++
  newline ++
  "جميع معلوماتك هي من المعلومات المعطاة ولا تستطيع الاجابة على سؤال خارج هذه المعلومات ")%string.

(** The two texts [process_message] yields from its handlers. *)
Definition FALLBACK_HTTP : string :=
  "I'm sorry, I'm having trouble accessing the necessary information right now. Please try again later.".

Definition FALLBACK_OTHER : string :=
  "I apologize, but I'm experiencing technical difficulties. Please try again later.".

(** The request models, as validation leaves them: every field present and
    of its declared type. *)
Record ChatRequest : Type := mkChatRequest {
  question : string;
  userId : string;
  messageId : string;
  userName : string;
  conversationId : string;
  questionTimestamp : Z
}.

Record FeedbackRequest : Type := mkFeedbackRequest {
  fb_question : string;
  fb_answer : string;
  fb_userId : string;
  fb_messageId : string;
  fb_conversationId : string;
  fb_feedback : string;
  fb_questionTimestamp : Z;
  fb_answerTimestamp : Z
}.

(** [request.dict()]. *)
Definition ChatRequest_dict (r : ChatRequest) : dict :=
  [ ("question", VStr (question r));
    ("userId", VStr (userId r));
    ("messageId", VStr (messageId r));
    ("userName", VStr (userName r));
    ("conversationId", VStr (conversationId r));
    ("questionTimestamp", VDatetime (questionTimestamp r)) ].

Definition FeedbackRequest_dict (r : FeedbackRequest) : dict :=
  [ ("question", VStr (fb_question r));
    ("answer", VStr (fb_answer r));
    ("userId", VStr (fb_userId r));
    ("messageId", VStr (fb_messageId r));
    ("conversationId", VStr (fb_conversationId r));
    ("feedback", VStr (fb_feedback r));
    ("questionTimestamp", VDatetime (fb_questionTimestamp r));
    ("answerTimestamp", VDatetime (fb_answerTimestamp r)) ].

(** The f-string [f"Bearer {AZURE_API_KEY}"]; an unset variable formats as
    [None]. *)
Definition bearer (env : Env) : string :=
  ("Bearer " ++ match AZURE_API_KEY env with
                | Some k => k
                | None => "None"
                end)%string.

Definition query_azure_endpoint (env : Env) (data : value) : M value :=
  let headers :=
    [ ("Authorization", VStr (bearer env));
      ("Content-Type", VStr "application/json") ] in
  match provider env AZURE_ENDPOINT headers data with
  | PostRaises => raise TransportError
  | Rejected status => raise (HTTPStatusError status)
  | Accepted None => raise JSONDecodeError
  | Accepted (Some body) => ret body
  end.

(** The payload [process_message] builds around the question. *)
Definition llm_input (q : value) : value :=
  VDict
    [ ("input_data",
       VDict
         [ ("input_string",
            VList
              [ VDict [("role", VStr "system"); ("content", VStr INSTRUCTIONS)];
                VDict [("role", VStr "user"); ("content", q)] ]);
           ("parameters",
            VDict [("temperature", VFloat 7 (-1)); ("max_tokens", VInt 2000)])
         ]) ].

(** The [try] block of [process_message]. *)
Definition process_message_try (env : Env) (data : dict) : M unit :=
  q <- getitem data "question";;
  llm_response <- query_azure_endpoint env (llm_input q);;
  full_response <- py_get llm_response "output" (VStr EmptyString);;
  v_userId <- getitem data "userId";;
  v_userName <- getitem data "userName";;
  v_conversationId <- getitem data "conversationId";;
  v_messageId <- getitem data "messageId";;
  v_question <- getitem data "question";;
  v_questionTimestamp <- getitem data "questionTimestamp";;
  t_answer <- utcnow env;;
  t_log <- utcnow env;;
  let log_entry :=
    [ ("userId", v_userId);
      ("userName", v_userName);
      ("conversationId", v_conversationId);
      ("messageId", v_messageId);
      ("question", v_question);
      ("answer", full_response);
      ("questionTimestamp", v_questionTimestamp);
      ("answerTimestamp", VIsoStr t_answer);
      ("feedback", VNone);
      ("logTimestamp", VDatetime t_log) ] in
  print "saving the logs..";;
  insert_one env log_entry;;
  print "logs saved!";;
  yield full_response.

(** The two handlers: [except httpx.HTTPError] is tried first, then
    [except Exception]. *)
Definition process_message_except (e : exn) : M unit :=
  if isinstance_HTTPError e then
    logger_error "HTTP error during Azure endpoint query: " (FExn e) EmptyString;;
    yield (VStr FALLBACK_HTTP)
  else
    logger_error "Error in process_message: " (FExn e) EmptyString;;
    yield (VStr FALLBACK_OTHER).

(** The generator run to its end: what it yields is added to [stream]. *)
Definition process_message (env : Env) (data : dict) : M unit :=
  try_except (process_message_try env data) process_message_except.

Definition save_feedback (env : Env) (data : dict) : M unit :=
  v_messageId <- getitem data "messageId";;
  v_feedback <- getitem data "feedback";;
  v_questionTimestamp <- getitem data "questionTimestamp";;
  v_answerTimestamp <- getitem data "answerTimestamp";;
  result <- update_one env
              [("messageId", v_messageId)]
              [ ("feedback", v_feedback);
                ("questionTimestamp", v_questionTimestamp);
                ("answerTimestamp", v_answerTimestamp) ];;
  if (modified_count result =? 0)%Z then
    v_messageId' <- getitem data "messageId";;
    logger_warning "No document found for messageId: " (FVal v_messageId')
                   ". Creating new entry.";;
    insert_one env data
  else ret tt.

(** [StreamingResponse(content, media_type=...)]: the generator is kept,
    not run; the framework runs it after the handler has returned. *)
Record StreamingResponse : Type := mkStreamingResponse {
  body_iterator : M unit;
  media_type : string
}.

(** [POST /chat].  The [try] of the handler covers the creation of the
    generator and of the response, which run nothing of
    [process_message]. *)
Definition chat_endpoint (env : Env) (request : ChatRequest)
  : M StreamingResponse :=
  logger_info "Received chat request: "
              (FVal (VDict (ChatRequest_dict request))) EmptyString;;
  try_except
    (let response_generator := process_message env (ChatRequest_dict request) in
     ret (mkStreamingResponse response_generator "text/plain"))
    (fun e =>
       logger_error "Error processing chat request: " (FExn e) EmptyString;;
       raise (HTTPException 500 "Internal server error")).

(** [POST /feedback]. *)
Definition feedback_endpoint (env : Env) (request : FeedbackRequest)
  : M value :=
  logger_info "Received feedback: "
              (FVal (VDict (FeedbackRequest_dict request))) EmptyString;;
  try_except
    (save_feedback env (FeedbackRequest_dict request);;
     ret (VDict [("message", VStr "Feedback recorded successfully")]))
    (fun e =>
       logger_error "Error saving feedback: " (FExn e) EmptyString;;
       raise (HTTPException 500 "Error saving feedback")).

(** *** Observations on a run *)

(** The documents handed to [insert_one] among a list of operations. *)
Fixpoint inserts_of (ops : list db_op) : list dict :=
  match ops with
  | [] => []
  | OpInsert doc :: r => doc :: inserts_of r
  | OpUpdate _ _ :: r => inserts_of r
  end.

(** The operations a run issued: those recorded after the [n] first. *)
Definition issued_since (w_before w_after : World) : list db_op :=
  skipn (List.length (db_log w_before)) (db_log w_after).

(** The chunks a run yielded. *)
Definition yielded_since (w_before w_after : World) : list value :=
  skipn (List.length (stream w_before)) (stream w_after).

(** The documents of a collection that carry a given [messageId]. *)
Definition entries_for (mid : string) (ds : list dict) : list dict :=
  filter (fun d => matches [("messageId", VStr mid)] d) ds.

(** The entry [process_message] logs for a request, given the answer and
    the two clock readings. *)
Definition chat_log_entry (r : ChatRequest) (answer : value)
  (t_answer t_log : Z) : dict :=
  [ ("userId", VStr (userId r));
    ("userName", VStr (userName r));
    ("conversationId", VStr (conversationId r));
    ("messageId", VStr (messageId r));
    ("question", VStr (question r));
    ("answer", answer);
    ("questionTimestamp", VDatetime (questionTimestamp r));
    ("answerTimestamp", VIsoStr t_answer);
    ("feedback", VNone);
    ("logTimestamp", VDatetime t_log) ].

(** The filter and the [$set] that [save_feedback] sends for a request. *)
Definition feedback_filter (r : FeedbackRequest) : dict :=
  [("messageId", VStr (fb_messageId r))].

Definition feedback_set (r : FeedbackRequest) : dict :=
  [ ("feedback", VStr (fb_feedback r));
    ("questionTimestamp", VDatetime (fb_questionTimestamp r));
    ("answerTimestamp", VDatetime (fb_answerTimestamp r)) ].

(** What [llm_response.get] gives for [output] on a JSON object, the empty
    string being the default. *)
Definition output_or_empty (body : dict) : value :=
  match lookup "output" body with
  | Some v => v
  | None => VStr EmptyString
  end.

(** The outcome of the provider call leaves text to forward: it raised, or
    returned something other than an object, or an object whose [output],
    when present, is a [str]. *)
Definition reply_is_text (o : outcome value) : bool :=
  match o with
  | Ret (VDict body) => is_str (output_or_empty body)
  | _ => true
  end.



(** The warning [save_feedback] logs before its fallback insert. *)
Definition no_document_warning (r : FeedbackRequest) : event :=
  Log WARNING "No document found for messageId: " (FVal (VStr (fb_messageId r)))
      ". Creating new entry.".

End Gateway.
Import Gateway.

(** ** Scenarios *)

Module Scenario.

(** An empty collection, nothing issued, logged, read or yielded yet. *)
Definition w0 : World := mkWorld [] [] [] 0 [].

Definition clock (n : nat) : Z := (2000 + Z.of_nat n)%Z.

Definition chat_m1 : ChatRequest :=
  mkChatRequest "What is X?" "u1" "m1" "Ann" "c1" 1000.


Definition feedback_m1 : FeedbackRequest :=
  mkFeedbackRequest "What is X?" "X is Y" "u1" "m1" "c1" "helpful" 1000 2000.

Definition x_is_y (url : string) (headers : dict) (payload : value)
  : http_reply :=
  Accepted (Some (VDict [("output", VStr "X is Y")])).

(** The provider answers and the driver fails nothing. *)
Definition env_ok : Env := mkEnv (Some "key") x_is_y clock (fun _ => false).

(** The provider call times out. *)
Definition env_timeout : Env :=
  mkEnv (Some "key") (fun _ _ _ => PostRaises) clock (fun _ => false).

(** The provider answers and the driver fails every operation. *)
Definition env_store_down : Env :=
  mkEnv (Some "key") x_is_y clock (fun _ => true).

(** The provider answers with an object that has no [output]. *)
Definition env_no_output : Env :=
  mkEnv (Some "key")
        (fun _ _ _ => Accepted (Some (VDict [("status", VStr "done")])))
        clock (fun _ => false).

(** The provider answers with a number under [output]. *)
Definition env_number : Env :=
  mkEnv (Some "key")
        (fun _ _ _ => Accepted (Some (VDict [("output", VInt 42)])))
        clock (fun _ => false).

(** The driver fails the operation of rank 1 and no other. *)
Definition env_second_op_fails : Env :=
  mkEnv (Some "key") x_is_y clock (fun n => Nat.eqb n 1).

(** The world after the chat exchange for [m1] has been logged. *)
Definition w_logged : World :=
  snd (process_message env_ok (ChatRequest_dict chat_m1) w0).

(** A collection whose only entry for [m1] already carries the feedback. *)
Definition w_reconciled : World :=
  mkWorld
    [ [ ("userId", VStr "u1");
        ("userName", VStr "Ann");
        ("conversationId", VStr "c1");
        ("messageId", VStr "m1");
        ("question", VStr "What is X?");
        ("answer", VStr "X is Y");
        ("questionTimestamp", VDatetime 1000);
        ("answerTimestamp", VDatetime 2000);
        ("feedback", VStr "helpful");
        ("logTimestamp", VDatetime 2001) ] ]
    [] [] 0 [].

End Scenario.

(** ** Start-up: the connection string and the connection test *)

Module Startup.

(** The bytes [urllib.parse.quote] never escapes: ASCII letters, digits and
    the four marks of [_.-~]. *)
Definition always_safe (a : ascii) : bool :=
  let n := nat_of_ascii a in
  ((65 <=? n) && (n <=? 90) || (97 <=? n) && (n <=? 122) ||
   (48 <=? n) && (n <=? 57) ||
   (n =? 95) || (n =? 46) || (n =? 45) || (n =? 126))%nat.

Definition is_space (a : ascii) : bool := (nat_of_ascii a =? 32)%nat.

Definition hex_digit (n : nat) : ascii :=
  nth n (list_ascii_of_string "0123456789ABCDEF") "0"%char.

(** The three characters of [%XX], in upper-case hexadecimal. *)
Definition percent_encode (a : ascii) : string :=
  let n := nat_of_ascii a in
  String "%"%char
    (String (hex_digit (n / 16))
       (String (hex_digit (n mod 16)) EmptyString)).

(** [quote(string, safe)] on the UTF-8 bytes of [string]: a byte that is
    always safe or in [safe] stays, any other becomes [%XX]. *)
Fixpoint quote (safe : ascii -> bool) (s : string) : string :=
  match s with
  | EmptyString => EmptyString
  | String a r =>
      ((if always_safe a || safe a then String a EmptyString
        else percent_encode a) ++ quote safe r)%string
  end.

Fixpoint has_space (s : string) : bool :=
  match s with
  | EmptyString => false
  | String a r => is_space a || has_space r
  end.

(** [string.replace(' ', '+')]. *)
Fixpoint replace_space (s : string) : string :=
  match s with
  | EmptyString => EmptyString
  | String a r =>
      String (if is_space a then "+"%char else a) (replace_space r)
  end.

(** [quote_plus(string)], with its default empty [safe]: without a space it
    is [quote]; with one, the space is kept through [quote] and then
    replaced. *)
Definition quote_plus (s : string) : string :=
  if has_space s then replace_space (quote is_space s)
  else quote (fun _ => false) s.




(** The value of a hexadecimal digit, 0 for any other character. *)
Definition hex_value (a : ascii) : nat :=
  let n := nat_of_ascii a in
  if ((48 <=? n) && (n <=? 57))%nat then n - 48
  else if ((65 <=? n) && (n <=? 70))%nat then n - 55
  else 0.

(** Reading a quoted text back: [+] is a space, [%XX] the byte [XX]. *)
Fixpoint unquote_plus (s : string) : string :=
  match s with
  | EmptyString => EmptyString
  | String a r =>
      if (nat_of_ascii a =? 43)%nat then String " "%char (unquote_plus r)
      else if (nat_of_ascii a =? 37)%nat then
        match r with
        | String h (String l r') =>
            String (ascii_of_nat (16 * hex_value h + hex_value l))
                   (unquote_plus r')
        | _ => String a (unquote_plus r)
        end
      else String a (unquote_plus r)
  end.

Definition TEST_DOCUMENT : dict :=
  [("test", VStr "Connection successful from gateway server")].

(** [client.server_info()]: returns when the server is reachable, raises
    otherwise. *)
Definition server_info (reachable : bool) : M unit :=
  if reachable then ret tt else raise PyMongoError.

(** [test_connection], given whether the server is reachable, the text an
    exception formats to, and the connection string. *)
Definition test_connection (env : Env) (reachable : bool)
  (str_exn : exn -> string) (uri : string) : M bool :=
  try_except
    (server_info reachable;;
     print "Successfully connected to the database.";;
     insert_one env TEST_DOCUMENT;;
     print "Successfully inserted a test document.";;
     ret true)
    (fun e =>
       print ("An error occurred while connecting to MongoDB: " ++ str_exn e)%string;;
       print ("MongoDB URI: " ++ uri)%string;;
       ret false).

End Startup.
Import Startup.

(** ** Further observations *)

Module Observe.

(** The headers [query_azure_endpoint] sends. *)
Definition azure_headers (env : Env) : dict :=
  [ ("Authorization", VStr (bearer env));
    ("Content-Type", VStr "application/json") ].

(** The keys [process_message] reads from its argument. *)
Definition chat_keys : list string :=
  [ "question"; "userId"; "userName"; "conversationId"; "messageId";
    "questionTimestamp" ].

(** The keys [save_feedback] reads from its argument. *)
Definition feedback_keys : list string :=
  [ "messageId"; "feedback"; "questionTimestamp"; "answerTimestamp" ].

(** What [process_message] yields for a valid request, read off the reply
    of the provider and off whether the driver fails the insert. *)
Definition chunk_for (reply : http_reply) (insert_fails : bool) : value :=
  match reply with
  | PostRaises | Rejected _ => VStr FALLBACK_HTTP
  | Accepted (Some (VDict body)) =>
      if insert_fails then VStr FALLBACK_OTHER else output_or_empty body
  | Accepted _ => VStr FALLBACK_OTHER
  end.

(** The documents that do not pass a filter. *)
Definition others (flt : dict) (ds : list dict) : list dict :=
  filter (fun d => negb (matches flt d)) ds.

Definition is_fallback (v : value) : bool :=
  value_eqb v (VStr FALLBACK_HTTP) || value_eqb v (VStr FALLBACK_OTHER).

(** [k in d]. *)
Definition has_key (k : string) (d : dict) : bool :=
  match lookup k d with
  | Some _ => true
  | None => false
  end.

(** What [quote_plus] makes of one byte. *)
Definition plus_encode (a : ascii) : string :=
  if is_space a then "+"
  else if always_safe a then String a EmptyString
  else percent_encode a.

Fixpoint plus_encode_all (s : string) : string :=
  match s with
  | EmptyString => EmptyString
  | String a r => (plus_encode a ++ plus_encode_all r)%string
  end.


End Observe.
Import Observe.

(** ** Facts about values and dictionaries *)

Module PyValFacts.

Lemma value_eqb_eq (a b : value) : value_eqb a b = true <-> a = b.
Proof.
  revert b. induction a using value_nested_ind; intros b'; destruct b';
    simpl; try (split; [discriminate | intros E; discriminate E]);
    try (split; congruence).
  - rewrite Bool.eqb_true_iff. split; congruence.
  - rewrite Z.eqb_eq. split; congruence.
  - rewrite andb_true_iff, !Z.eqb_eq. split; [intros []; congruence | intros E; inversion E; auto].
  - rewrite String.eqb_eq. split; congruence.
  - rewrite Z.eqb_eq. split; congruence.
  - rewrite Z.eqb_eq. split; congruence.
  - revert l0. induction H as [| x r Hx Hr IH]; intros [| y r']; simpl;
      try (split; [discriminate | intros E; discriminate E]).
    + split; reflexivity.
    + rewrite andb_true_iff, Hx, IH.
      split; [intros [-> E]; inversion E; reflexivity
             | intros E; inversion E; split; reflexivity].
  - revert d0. induction H as [| [k x] r Hx Hr IH]; intros [| [k' y] r']; simpl;
      try (split; [discriminate | intros E; discriminate E]).
    + split; reflexivity.
    + simpl in Hx. rewrite !andb_true_iff, String.eqb_eq, Hx, IH.
      split; [intros [[-> ->] E]; inversion E; reflexivity
             | intros E; inversion E; repeat split; reflexivity].
Qed.

Lemma value_eqb_refl (a : value) : value_eqb a a = true.
Proof. apply value_eqb_eq. reflexivity. Qed.

Lemma dict_eqb_eq (d d' : dict) : dict_eqb d d' = true <-> d = d'.
Proof.
  unfold dict_eqb. rewrite value_eqb_eq. split; congruence.
Qed.

Lemma dict_eqb_refl (d : dict) : dict_eqb d d = true.
Proof. apply dict_eqb_eq. reflexivity. Qed.

Lemma lookup_assign_same k v d : lookup k (assign k v d) = Some v.
Proof.
  induction d as [| [k' v'] r IH]; simpl.
  - now rewrite String.eqb_refl.
  - destruct (String.eqb k k') eqn:E; simpl.
    + now rewrite String.eqb_refl.
    + now rewrite E.
Qed.

Lemma lookup_assign_other k k' v d :
  k <> k' -> lookup k (assign k' v d) = lookup k d.
Proof.
  intros N. apply String.eqb_neq in N.
  induction d as [| [k0 v0] r IH]; simpl.
  - now rewrite N.
  - destruct (String.eqb k' k0) eqn:E; simpl.
    + apply String.eqb_eq in E. subst k0. now rewrite N.
    + now rewrite IH.
Qed.

(** Writing to a key the value it already holds leaves the dictionary as it
    was. *)
Lemma assign_same_value k v d : lookup k d = Some v -> assign k v d = d.
Proof.
  induction d as [| [k' v'] r IH]; simpl; [discriminate |].
  destruct (String.eqb k k') eqn:E.
  - apply String.eqb_eq in E. subst k'. intros [= ->]. reflexivity.
  - intros H. now rewrite IH.
Qed.

End PyValFacts.

(** ** Runs of the chat pipeline *)

Module PipelineFacts.
Import Scenario.

Lemma skipn_length_app {A} (a l : list A) : skipn (List.length a) (a ++ l) = l.
Proof. induction a as [| x a IH]; simpl; auto. Qed.

Lemma snoc2 {A} (l : list A) (a b : A) : (l ++ [a]) ++ [b] = l ++ [a; b].
Proof. now rewrite <- app_assoc. Qed.

(** The provider call touches nothing of the world. *)
Lemma query_azure_endpoint_world env data w o w1 :
  query_azure_endpoint env data w = (o, w1) -> w1 = w.
Proof.
  unfold query_azure_endpoint.
  destruct (provider env _ _ data) as [| status | [body |]];
    unfold raise, ret; intros [= _ <-]; reflexivity.
Qed.

(** Either handler logs one error and yields one fixed text. *)
Lemma process_message_except_run e w :
  process_message_except e w =
  (Ret tt,
   mkWorld (docs w) (db_log w)
     (journal w ++
        [Log ERROR (if isinstance_HTTPError e
                    then "HTTP error during Azure endpoint query: "
                    else "Error in process_message: ") (FExn e) EmptyString])
     (ticks w)
     (stream w ++
        [VStr (if isinstance_HTTPError e then FALLBACK_HTTP
               else FALLBACK_OTHER)])).
Proof.
  unfold process_message_except. destruct (isinstance_HTTPError e); reflexivity.
Qed.

(** When the provider call raises, the run is the run of the handler. *)
Lemma process_message_provider_raises env r w e w1 :
  query_azure_endpoint env (llm_input (VStr (question r))) w = (Raise e, w1) ->
  process_message env (ChatRequest_dict r) w = process_message_except e w.
Proof.
  intros H. pose proof (query_azure_endpoint_world _ _ _ _ _ H) as ->.
  unfold process_message, try_except, process_message_try, bind.
  cbn -[llm_input query_azure_endpoint]. rewrite H. reflexivity.
Qed.

(** A JSON reply that is not an object has no [get]: the second handler
    runs. *)
Lemma process_message_not_object env r w resp w1 :
  query_azure_endpoint env (llm_input (VStr (question r))) w = (Ret resp, w1) ->
  (forall body, resp <> VDict body) ->
  process_message env (ChatRequest_dict r) w =
  process_message_except (AttributeError "get") w.
Proof.
  intros H N. pose proof (query_azure_endpoint_world _ _ _ _ _ H) as ->.
  unfold process_message, try_except, process_message_try, bind.
  cbn -[llm_input query_azure_endpoint]. rewrite H.
  destruct resp; try reflexivity. now destruct (N d).
Qed.

(** The reply is an object and the driver accepts the insert: the entry is
    stored, then the answer is yielded. *)
Lemma process_message_logged env r w body w1 :
  query_azure_endpoint env (llm_input (VStr (question r))) w
    = (Ret (VDict body), w1) ->
  db_fault env (List.length (db_log w)) = false ->
  let entry := chat_log_entry r (output_or_empty body)
                 (utcnow_at env (ticks w)) (utcnow_at env (S (ticks w))) in
  process_message env (ChatRequest_dict r) w =
  (Ret tt,
   mkWorld (docs w ++ [entry]) (db_log w ++ [OpInsert entry])
     (journal w ++ [Print "saving the logs.."; Print "logs saved!"])
     (S (S (ticks w)))
     (stream w ++ [output_or_empty body])).
Proof.
  intros H F entry. pose proof (query_azure_endpoint_world _ _ _ _ _ H) as ->.
  unfold process_message, try_except, process_message_try, bind.
  cbn -[llm_input query_azure_endpoint]. rewrite H.
  unfold py_get, output_or_empty in *.
  destruct (lookup "output" body) as [v |];
    cbn -[llm_input query_azure_endpoint]; unfold insert_one, issue; cbn;
    rewrite F; cbn; rewrite snoc2; reflexivity.
Qed.

(** The reply is an object and the driver fails the insert: the exception
    reaches the second handler, and the answer is never yielded. *)
Lemma process_message_insert_fails env r w body w1 :
  query_azure_endpoint env (llm_input (VStr (question r))) w
    = (Ret (VDict body), w1) ->
  db_fault env (List.length (db_log w)) = true ->
  let entry := chat_log_entry r (output_or_empty body)
                 (utcnow_at env (ticks w)) (utcnow_at env (S (ticks w))) in
  process_message env (ChatRequest_dict r) w =
  (Ret tt,
   mkWorld (docs w) (db_log w ++ [OpInsert entry])
     (journal w ++ [Print "saving the logs..";
                    Log ERROR "Error in process_message: "
                        (FExn PyMongoError) EmptyString])
     (S (S (ticks w)))
     (stream w ++ [VStr FALLBACK_OTHER])).
Proof.
  intros H F entry. pose proof (query_azure_endpoint_world _ _ _ _ _ H) as ->.
  unfold process_message, try_except, process_message_try, bind.
  cbn -[llm_input query_azure_endpoint]. rewrite H.
  unfold py_get, output_or_empty in *.
  destruct (lookup "output" body) as [v |];
    cbn -[llm_input query_azure_endpoint]; unfold insert_one, issue; cbn;
    rewrite F; cbn; rewrite snoc2; reflexivity.
Qed.

(** Whatever happens in the [try] block, the generator ends normally. *)
Lemma process_message_returns env r w :
  fst (process_message env (ChatRequest_dict r) w) = Ret tt.
Proof.
  destruct (query_azure_endpoint env (llm_input (VStr (question r))) w)
    as [[resp | e] w1] eqn:H.
  - destruct resp as [| | | | | | | | body];
      try (rewrite (process_message_not_object _ _ _ _ _ H)
             by (intros; discriminate);
           now rewrite process_message_except_run).
    destruct (db_fault env (List.length (db_log w))) eqn:F.
    + now rewrite (process_message_insert_fails _ _ _ _ _ H F).
    + now rewrite (process_message_logged _ _ _ _ _ H F).
  - now rewrite (process_message_provider_raises _ _ _ _ _ H),
      process_message_except_run.
Qed.

(** The handler of [POST /chat] logs the request and hands back the
    response around the generator, which it has not started. *)
Lemma chat_endpoint_returns env r w :
  chat_endpoint env r w =
  (Ret (mkStreamingResponse (process_message env (ChatRequest_dict r))
          "text/plain"),
   mkWorld (docs w) (db_log w)
     (journal w ++
        [Log INFO "Received chat request: "
             (FVal (VDict (ChatRequest_dict r))) EmptyString])
     (ticks w) (stream w)).
Proof. reflexivity. Qed.

(** An [output] that is not a string is forwarded as it came. *)
Example process_message_forwards_number :
  stream (snd (process_message env_number (ChatRequest_dict chat_m1) w0))
  = [VInt 42].
Proof. reflexivity. Qed.

End PipelineFacts.

(** ** Runs of the feedback reconciler *)

Module FeedbackFacts.
Import PyValFacts.

(** *** [update_first] under a filter that the [$set] cannot disturb *)

Section UpdateFirst.
Variables flt fields data : dict.
Hypothesis set_keeps_match :
  forall d, matches flt (apply_set fields d) = matches flt d.
Hypothesis set_idempotent :
  forall d, apply_set fields (apply_set fields d) = apply_set fields d.
Hypothesis data_matches : matches flt data = true.
Hypothesis data_fixed : apply_set fields data = data.

(** Nothing modified means nothing changed. *)
Lemma update_first_unmodified ds :
  modified_count (snd (update_first flt fields ds)) = 0%Z ->
  fst (update_first flt fields ds) = ds.
Proof.
  induction ds as [| d r IH]; simpl; [reflexivity |].
  destruct (matches flt d).
  - simpl. destruct (dict_eqb (apply_set fields d) d) eqn:E;
      [| discriminate].
    apply dict_eqb_eq in E. now rewrite E.
  - destruct (update_first flt fields r) as [r' res]; simpl in *.
    intros H. now rewrite IH.
Qed.

(** Once applied, the same update finds its document again and has
    nothing left to change. *)
Lemma update_first_again ds :
  modified_count
    (snd (update_first flt fields (fst (update_first flt fields ds)))) = 0%Z.
Proof.
  induction ds as [| d r IH]; simpl; [reflexivity |].
  destruct (matches flt d) eqn:Hm; simpl.
  - rewrite set_keeps_match, Hm, set_idempotent, dict_eqb_refl. reflexivity.
  - destruct (update_first flt fields r) as [r' res]; simpl in *.
    rewrite Hm.
    destruct (update_first flt fields r') as [r'' res']; simpl in *.
    exact IH.
Qed.

(** An update that modified nothing still modifies nothing once [data] is
    appended: it stops at the same document, or reaches [data], which
    already holds the fields. *)
Lemma update_first_appended ds :
  modified_count (snd (update_first flt fields ds)) = 0%Z ->
  modified_count (snd (update_first flt fields (ds ++ [data]))) = 0%Z.
Proof.
  induction ds as [| d r IH]; simpl.
  - intros _. rewrite data_matches, data_fixed, dict_eqb_refl. reflexivity.
  - destruct (matches flt d); [trivial |].
    destruct (update_first flt fields r) as [r' res];
      destruct (update_first flt fields (r ++ [data])) as [r'' res'];
      simpl in *. exact IH.
Qed.

(** The two counts are 0 or 1, and nothing is modified unless matched. *)
Lemma update_first_counts ds :
  let res := snd (update_first flt fields ds) in
  (matched_count res = 0 /\ modified_count res = 0)%Z \/
  (matched_count res = 1 /\ (modified_count res = 0 \/ modified_count res = 1))%Z.
Proof.
  induction ds as [| d r IH]; simpl; [left; split; reflexivity |].
  destruct (matches flt d); simpl.
  - right. destruct (dict_eqb _ _); auto.
  - destruct (update_first flt fields r) as [r' res]; simpl in *. exact IH.
Qed.

(** The update leaves as many documents passing the filter as before. *)
Lemma update_first_keeps_matching ds :
  List.length (filter (matches flt) (fst (update_first flt fields ds)))
  = List.length (filter (matches flt) ds).
Proof.
  induction ds as [| d r IH]; simpl; [reflexivity |].
  destruct (matches flt d) eqn:Hm; simpl.
  - now rewrite set_keeps_match, Hm.
  - destruct (update_first flt fields r) as [r' res]; simpl in *.
    now rewrite Hm.
Qed.
End UpdateFirst.

(** *** The filter and [$set] of [save_feedback] *)

Lemma lookup_apply_set_feedback r d :
  lookup "messageId" (apply_set (feedback_set r) d) = lookup "messageId" d.
Proof.
  unfold apply_set, feedback_set; simpl.
  rewrite !lookup_assign_other by discriminate. reflexivity.
Qed.

Lemma feedback_set_keeps_match r d :
  matches (feedback_filter r) (apply_set (feedback_set r) d)
  = matches (feedback_filter r) d.
Proof.
  unfold matches, feedback_filter. cbn [forallb fst snd].
  now rewrite lookup_apply_set_feedback.
Qed.

Lemma feedback_set_idempotent r d :
  apply_set (feedback_set r) (apply_set (feedback_set r) d)
  = apply_set (feedback_set r) d.
Proof.
  unfold apply_set, feedback_set; simpl.
  set (d1 := assign "feedback" _ d).
  set (d2 := assign "questionTimestamp" _ d1).
  set (d3 := assign "answerTimestamp" _ d2).
  assert (H1 : lookup "feedback" d3 = Some (VStr (fb_feedback r))).
  { subst d3 d2 d1. rewrite !lookup_assign_other by discriminate.
    apply lookup_assign_same. }
  assert (H2 : lookup "questionTimestamp" d3
               = Some (VDatetime (fb_questionTimestamp r))).
  { subst d3 d2. rewrite lookup_assign_other by discriminate.
    apply lookup_assign_same. }
  assert (H3 : lookup "answerTimestamp" d3
               = Some (VDatetime (fb_answerTimestamp r))).
  { subst d3. apply lookup_assign_same. }
  rewrite (assign_same_value _ _ _ H1), (assign_same_value _ _ _ H2),
    (assign_same_value _ _ _ H3). reflexivity.
Qed.

Lemma feedback_data_matches r :
  matches (feedback_filter r) (FeedbackRequest_dict r) = true.
Proof.
  unfold matches, feedback_filter; simpl. now rewrite String.eqb_refl.
Qed.

Lemma feedback_data_fixed r :
  apply_set (feedback_set r) (FeedbackRequest_dict r) = FeedbackRequest_dict r.
Proof. reflexivity. Qed.

(** *** [save_feedback], case by case *)

Lemma save_feedback_run env r w :
  save_feedback env (FeedbackRequest_dict r) w =
  let data := FeedbackRequest_dict r in
  let upd := OpUpdate (feedback_filter r) (feedback_set r) in
  let n := List.length (db_log w) in
  if db_fault env n then
    (Raise PyMongoError,
     mkWorld (docs w) (db_log w ++ [upd]) (journal w) (ticks w) (stream w))
  else
    let ds := fst (update_first (feedback_filter r) (feedback_set r) (docs w)) in
    let res := snd (update_first (feedback_filter r) (feedback_set r) (docs w)) in
    if (modified_count res =? 0)%Z then
      if db_fault env (S n) then
        (Raise PyMongoError,
         mkWorld ds (db_log w ++ [upd; OpInsert data])
           (journal w ++ [no_document_warning r]) (ticks w) (stream w))
      else
        (Ret tt,
         mkWorld (ds ++ [data]) (db_log w ++ [upd; OpInsert data])
           (journal w ++ [no_document_warning r]) (ticks w) (stream w))
    else
      (Ret tt,
       mkWorld ds (db_log w ++ [upd]) (journal w) (ticks w) (stream w)).
Proof.
  unfold save_feedback, bind. cbn -[update_first].
  unfold update_one, issue. cbn -[update_first].
  fold (feedback_filter r). fold (feedback_set r).
  destruct (db_fault env (List.length (db_log w))); [reflexivity |].
  destruct (update_first (feedback_filter r) (feedback_set r) (docs w))
    as [ds res]; cbn -[update_first].
  destruct (modified_count res =? 0)%Z; [| reflexivity].
  unfold insert_one, issue; cbn.
  rewrite length_app, Nat.add_1_r; cbn.
  destruct (db_fault env (S (List.length (db_log w))));
    rewrite <- app_assoc; reflexivity.
Qed.


(** X11: with a driver that fails nothing, the second of two identical calls
    never modifies anything, and so always inserts the request. *)
Lemma save_feedback_repeat_inserts env r w :
  (forall n, db_fault env n = false) ->
  let data := FeedbackRequest_dict r in
  let w1 := snd (save_feedback env data w) in
  save_feedback env data w1 =
  (Ret tt,
   mkWorld (docs w1 ++ [data])
     (db_log w1 ++ [OpUpdate (feedback_filter r) (feedback_set r);
                    OpInsert data])
     (journal w1 ++ [no_document_warning r]) (ticks w1) (stream w1)).
Proof.
  intros F data w1.
  assert (Hq : modified_count
                 (snd (update_first (feedback_filter r) (feedback_set r)
                         (docs w1))) = 0%Z).
  { subst w1 data. rewrite save_feedback_run. cbn zeta. rewrite !F.
    destruct (modified_count
                (snd (update_first (feedback_filter r) (feedback_set r)
                        (docs w))) =? 0)%Z eqn:E; cbn [snd docs].
    - apply Z.eqb_eq in E.
      rewrite (update_first_unmodified _ _ _ E).
      apply update_first_appended;
        auto using feedback_data_matches, feedback_data_fixed.
    - apply update_first_again;
        auto using feedback_set_keeps_match, feedback_set_idempotent. }
  subst data. rewrite save_feedback_run. cbn zeta. rewrite !F, Hq. cbn.
  now rewrite (update_first_unmodified _ _ _ Hq).
Qed.

(** X12: when the update modifies the entry it matched, nothing is inserted and
    the store holds as many entries for the message as before. *)
Lemma save_feedback_modifies_no_insert env r w :
  db_fault env (List.length (db_log w)) = false ->
  modified_count
    (snd (update_first (feedback_filter r) (feedback_set r) (docs w))) <> 0%Z ->
  let run := save_feedback env (FeedbackRequest_dict r) w in
  fst run = Ret tt /\
  inserts_of (skipn (List.length (db_log w)) (db_log (snd run))) = [] /\
  List.length (entries_for (fb_messageId r) (docs (snd run)))
  = List.length (entries_for (fb_messageId r) (docs w)).
Proof.
  intros F Hm run. subst run. rewrite save_feedback_run. cbn zeta.
  rewrite F. apply Z.eqb_neq in Hm. rewrite Hm. cbn [fst snd db_log docs].
  split; [reflexivity |]. split.
  - assert (E : forall (a l : list db_op),
               skipn (List.length a) (a ++ l) = l)
      by (induction a; simpl; auto).
    now rewrite E.
  - unfold entries_for. fold (feedback_filter r).
    apply update_first_keeps_matching, feedback_set_keeps_match.
Qed.

(** The entry the chat pipeline logged for a message is modified by the
    first feedback on it: its [feedback] goes from [None] to the text. *)
Lemma update_first_fresh_entry rc answer t_answer t_log r rest :
  messageId rc = fb_messageId r ->
  modified_count
    (snd (update_first (feedback_filter r) (feedback_set r)
            (chat_log_entry rc answer t_answer t_log :: rest))) = 1%Z.
Proof.
  intros Hid. cbn -[apply_set dict_eqb].
  rewrite Hid, String.eqb_refl. cbn -[apply_set dict_eqb].
  destruct (dict_eqb _ _) eqn:E; [| reflexivity].
  apply dict_eqb_eq in E.
  apply (f_equal (lookup "feedback")) in E. discriminate E.
Qed.

End FeedbackFacts.

(** ** The chat pipeline: what the caller and the store see *)

Import PipelineFacts FeedbackFacts Scenario.

(** C1, as the code has it: when the provider call fails with a
    transport or HTTP error, the pipeline raises nothing, yields the fixed
    transport-fallback text and nothing else, and issues no operation to the
    store: the exchange is not logged there.  The failure is written to the
    operator log, as one error record that carries the exception. *)
Theorem process_message_http_error_not_logged env r w e w1 :
  query_azure_endpoint env (llm_input (VStr (question r))) w = (Raise e, w1) ->
  isinstance_HTTPError e = true ->
  let res := process_message env (ChatRequest_dict r) w in
  fst res = Ret tt /\
  yielded_since w (snd res) = [VStr FALLBACK_HTTP] /\
  issued_since w (snd res) = [] /\
  docs (snd res) = docs w /\
  journal (snd res)
    = journal w ++
      [Log ERROR "HTTP error during Azure endpoint query: " (FExn e)
           EmptyString].
Proof.
  intros H He res. subst res.
  rewrite (process_message_provider_raises _ _ _ _ _ H),
    process_message_except_run, He.
  unfold yielded_since, issued_since; simpl.
  rewrite skipn_length_app, skipn_all. auto.
Qed.

Lemma process_message_http_error_not_logged_witness :
  query_azure_endpoint env_timeout (llm_input (VStr (question chat_m1))) w0
    = (Raise TransportError, w0) /\
  isinstance_HTTPError TransportError = true /\
  let res := process_message env_timeout (ChatRequest_dict chat_m1) w0 in
  fst res = Ret tt /\
  yielded_since w0 (snd res) = [VStr FALLBACK_HTTP] /\
  issued_since w0 (snd res) = [] /\
  docs (snd res) = docs w0 /\
  journal (snd res)
    = journal w0 ++
      [Log ERROR "HTTP error during Azure endpoint query: "
           (FExn TransportError) EmptyString].
Proof.
  split; [reflexivity |]. split; [reflexivity |].
  apply (process_message_http_error_not_logged
           env_timeout chat_m1 w0 TransportError w0); reflexivity.
Defined.

(** C1 fails as stated: on a timeout the fallback text is yielded, but the
    store does not receive one insert carrying it; it receives none. *)
Lemma process_message_timeout_no_insert :
  let res := process_message env_timeout (ChatRequest_dict chat_m1) w0 in
  query_azure_endpoint env_timeout (llm_input (VStr (question chat_m1))) w0
    = (Raise TransportError, w0) /\
  yielded_since w0 (snd res) = [VStr FALLBACK_HTTP] /\
  ~ (exists entry,
        inserts_of (issued_since w0 (snd res)) = [entry] /\
        lookup "answer" entry = Some (VStr FALLBACK_HTTP)).
Proof.
  repeat split; try reflexivity.
  intros [entry [H _]]. vm_compute in H. discriminate H.
Qed.

(** C2, as the code has it: when the provider call succeeds with a JSON
    object and the driver fails the insert, the failure is not raised to the
    caller and is written to the operator log, but the caller receives the
    second fallback text in place of the answer, because the insert is
    issued before the answer is yielded; the collection stays as it was. *)
Theorem process_message_insert_failure_yields_fallback env r w body w1 :
  query_azure_endpoint env (llm_input (VStr (question r))) w
    = (Ret (VDict body), w1) ->
  db_fault env (List.length (db_log w)) = true ->
  let res := process_message env (ChatRequest_dict r) w in
  fst res = Ret tt /\
  yielded_since w (snd res) = [VStr FALLBACK_OTHER] /\
  journal (snd res) =
    journal w ++ [Print "saving the logs..";
                  Log ERROR "Error in process_message: " (FExn PyMongoError) EmptyString] /\
  docs (snd res) = docs w.
Proof.
  intros H F res. subst res.
  rewrite (process_message_insert_fails _ _ _ _ _ H F).
  unfold yielded_since; simpl. rewrite skipn_length_app. auto.
Qed.

Lemma process_message_insert_failure_yields_fallback_witness :
  query_azure_endpoint env_store_down (llm_input (VStr (question chat_m1))) w0
    = (Ret (VDict [("output", VStr "X is Y")]), w0) /\
  db_fault env_store_down (List.length (db_log w0)) = true /\
  let res := process_message env_store_down (ChatRequest_dict chat_m1) w0 in
  fst res = Ret tt /\
  yielded_since w0 (snd res) = [VStr FALLBACK_OTHER] /\
  journal (snd res) =
    journal w0 ++ [Print "saving the logs..";
                   Log ERROR "Error in process_message: " (FExn PyMongoError) EmptyString] /\
  docs (snd res) = docs w0.
Proof.
  split; [reflexivity |]. split; [reflexivity |].
  apply (process_message_insert_failure_yields_fallback
           env_store_down chat_m1 w0 [("output", VStr "X is Y")] w0);
    reflexivity.
Defined.

(** C2 fails as stated: the provider answers "X is Y", the insert fails,
    and what the caller receives is not that answer but a fallback text. *)
Lemma process_message_insert_failure_changes_answer :
  let res := process_message env_store_down (ChatRequest_dict chat_m1) w0 in
  query_azure_endpoint env_store_down (llm_input (VStr (question chat_m1))) w0
    = (Ret (VDict [("output", VStr "X is Y")]), w0) /\
  db_fault env_store_down (List.length (db_log w0)) = true /\
  yielded_since w0 (snd res) = [VStr FALLBACK_OTHER] /\
  yielded_since w0 (snd res) <> [VStr "X is Y"].
Proof.
  repeat split; try reflexivity.
  intros H. vm_compute in H. discriminate H.
Qed.

(** C6, as the code has it: for every valid ChatRequest, whatever the
    provider and the driver do, [process_message] raises nothing to its
    caller and yields a non-empty sequence, of exactly one chunk.  The
    chunk is text in every run but one: the provider returned an object
    whose [output] is not a string and the insert succeeded, so that value
    was forwarded as it came. *)
Theorem process_message_never_raises env r w :
  let res := process_message env (ChatRequest_dict r) w in
  let reply := fst (query_azure_endpoint env (llm_input (VStr (question r))) w) in
  fst res = Ret tt /\
  yielded_since w (snd res) <> [] /\
  List.length (yielded_since w (snd res)) = 1%nat /\
  forallb is_str (yielded_since w (snd res))
    = reply_is_text reply || db_fault env (List.length (db_log w)).
Proof.
  intros res reply. subst res reply.
  destruct (query_azure_endpoint env (llm_input (VStr (question r))) w)
    as [[resp | e] w1] eqn:H.
  - destruct (db_fault env (List.length (db_log w))) eqn:F.
    + destruct resp;
        try (rewrite (process_message_not_object _ _ _ _ _ H)
               by (intros; discriminate);
             rewrite process_message_except_run;
             unfold yielded_since; simpl; rewrite skipn_length_app;
             repeat split; discriminate).
      rewrite (process_message_insert_fails _ _ _ _ _ H F).
      unfold yielded_since; simpl. rewrite skipn_length_app, orb_true_r.
      repeat split; discriminate.
    + destruct resp;
        try (rewrite (process_message_not_object _ _ _ _ _ H)
               by (intros; discriminate);
             rewrite process_message_except_run;
             unfold yielded_since; simpl; rewrite skipn_length_app;
             repeat split; discriminate).
      rewrite (process_message_logged _ _ _ _ _ H F).
      unfold yielded_since; simpl. rewrite skipn_length_app; simpl.
      rewrite orb_false_r, andb_true_r. repeat split; discriminate.
  - rewrite (process_message_provider_raises _ _ _ _ _ H),
      process_message_except_run.
    unfold yielded_since; simpl. rewrite skipn_length_app.
    repeat split; discriminate.
Qed.

(** C6 fails as stated: the provider answers with the number 42 under
    [output] and the insert succeeds; the one chunk handed to the caller is
    that number, not text. *)
Lemma process_message_number_chunk_not_text :
  let res := process_message env_number (ChatRequest_dict chat_m1) w0 in
  query_azure_endpoint env_number (llm_input (VStr (question chat_m1))) w0
    = (Ret (VDict [("output", VInt 42)]), w0) /\
  db_fault env_number (List.length (db_log w0)) = false /\
  fst res = Ret tt /\
  yielded_since w0 (snd res) = [VInt 42] /\
  forallb is_str (yielded_since w0 (snd res)) = false.
Proof. repeat split; reflexivity. Qed.

(** C7: when the provider call succeeds with an object that has an
    [output] field and the insert succeeds, the pipeline yields exactly that
    field, as it came. *)
Theorem process_message_answer_verbatim env r w body w1 v :
  query_azure_endpoint env (llm_input (VStr (question r))) w
    = (Ret (VDict body), w1) ->
  lookup "output" body = Some v ->
  db_fault env (List.length (db_log w)) = false ->
  let res := process_message env (ChatRequest_dict r) w in
  fst res = Ret tt /\ yielded_since w (snd res) = [v].
Proof.
  intros H Hv F res. subst res.
  rewrite (process_message_logged _ _ _ _ _ H F).
  unfold yielded_since, output_or_empty; simpl.
  rewrite skipn_length_app, Hv. auto.
Qed.

Lemma process_message_answer_verbatim_witness :
  query_azure_endpoint env_ok (llm_input (VStr (question chat_m1))) w0
    = (Ret (VDict [("output", VStr "X is Y")]), w0) /\
  lookup "output" [("output", VStr "X is Y")] = Some (VStr "X is Y") /\
  db_fault env_ok (List.length (db_log w0)) = false /\
  let res := process_message env_ok (ChatRequest_dict chat_m1) w0 in
  fst res = Ret tt /\ yielded_since w0 (snd res) = [VStr "X is Y"].
Proof.
  split; [reflexivity |]. split; [reflexivity |]. split; [reflexivity |].
  apply (process_message_answer_verbatim
           env_ok chat_m1 w0 [("output", VStr "X is Y")] w0 (VStr "X is Y"));
    reflexivity.
Defined.

(** C8: when the provider call fails, the pipeline yields exactly one of
    two fixed and distinct texts: the first when the failure is an
    [httpx.HTTPError] (transport failure or rejected status), the second for
    any other exception. *)
Theorem process_message_fallback_by_category env r w e w1 :
  query_azure_endpoint env (llm_input (VStr (question r))) w = (Raise e, w1) ->
  let res := process_message env (ChatRequest_dict r) w in
  yielded_since w (snd res)
    = [VStr (if isinstance_HTTPError e then FALLBACK_HTTP else FALLBACK_OTHER)] /\
  (isinstance_HTTPError e = true <->
   e = TransportError \/ exists status, e = HTTPStatusError status) /\
  FALLBACK_HTTP <> FALLBACK_OTHER.
Proof.
  intros H res. subst res.
  rewrite (process_message_provider_raises _ _ _ _ _ H),
    process_message_except_run.
  unfold yielded_since; simpl. rewrite skipn_length_app.
  split; [reflexivity |]. split; [| discriminate].
  destruct e; simpl; split; intros Hx;
    try discriminate; try reflexivity; eauto;
    destruct Hx as [Hx | [s Hx]]; discriminate Hx.
Qed.

Lemma process_message_fallback_by_category_witness :
  query_azure_endpoint env_timeout (llm_input (VStr (question chat_m1))) w0
    = (Raise TransportError, w0) /\
  let res := process_message env_timeout (ChatRequest_dict chat_m1) w0 in
  yielded_since w0 (snd res)
    = [VStr (if isinstance_HTTPError TransportError
             then FALLBACK_HTTP else FALLBACK_OTHER)] /\
  (isinstance_HTTPError TransportError = true <->
   TransportError = TransportError \/
   exists status, TransportError = HTTPStatusError status) /\
  FALLBACK_HTTP <> FALLBACK_OTHER.
Proof.
  split; [reflexivity |].
  apply (process_message_fallback_by_category
           env_timeout chat_m1 w0 TransportError w0); reflexivity.
Defined.



(** C10: when the provider call succeeds with an object that has no
    [output] key and the driver accepts the insert, the pipeline yields the
    empty string and stores one entry whose [answer] is the empty string;
    no handler runs and no error is logged. *)
Theorem process_message_missing_output env r w body w1 :
  query_azure_endpoint env (llm_input (VStr (question r))) w
    = (Ret (VDict body), w1) ->
  lookup "output" body = None ->
  db_fault env (List.length (db_log w)) = false ->
  let res := process_message env (ChatRequest_dict r) w in
  fst res = Ret tt /\
  yielded_since w (snd res) = [VStr EmptyString] /\
  journal (snd res)
    = journal w ++ [Print "saving the logs.."; Print "logs saved!"] /\
  exists entry,
    inserts_of (issued_since w (snd res)) = [entry] /\
    docs (snd res) = docs w ++ [entry] /\
    lookup "answer" entry = Some (VStr EmptyString).
Proof.
  intros H Hnone F res. subst res.
  rewrite (process_message_logged _ _ _ _ _ H F).
  unfold yielded_since, issued_since, output_or_empty.
  rewrite Hnone. cbn [fst snd db_log docs stream journal].
  rewrite !skipn_length_app.
  split; [reflexivity |]. split; [reflexivity |]. split; [reflexivity |].
  eexists. repeat split; reflexivity.
Qed.

Lemma process_message_missing_output_witness :
  query_azure_endpoint env_no_output (llm_input (VStr (question chat_m1))) w0
    = (Ret (VDict [("status", VStr "done")]), w0) /\
  lookup "output" [("status", VStr "done")] = None /\
  db_fault env_no_output (List.length (db_log w0)) = false /\
  let res := process_message env_no_output (ChatRequest_dict chat_m1) w0 in
  fst res = Ret tt /\
  yielded_since w0 (snd res) = [VStr EmptyString] /\
  journal (snd res)
    = journal w0 ++ [Print "saving the logs.."; Print "logs saved!"] /\
  exists entry,
    inserts_of (issued_since w0 (snd res)) = [entry] /\
    docs (snd res) = docs w0 ++ [entry] /\
    lookup "answer" entry = Some (VStr EmptyString).
Proof.
  split; [reflexivity |]. split; [reflexivity |]. split; [reflexivity |].
  apply (process_message_missing_output
           env_no_output chat_m1 w0 [("status", VStr "done")] w0);
    reflexivity.
Defined.

(** ** Feedback reconciliation: what the caller and the store see *)

(** C4, as the code has it: [POST /feedback] answers with the error
    exactly when the update itself fails, in which case no insert is even
    attempted, or when the update succeeds with a modified count of 0 and
    the fallback insert fails.  In every other run, the one where nothing
    was found and the insert succeeds included, the caller gets the
    confirmation. *)
Theorem feedback_endpoint_outcome env r w :
  let n := List.length (db_log w) in
  let res := snd (update_first (feedback_filter r) (feedback_set r) (docs w)) in
  let run := feedback_endpoint env r w in
  fst run =
    (if db_fault env n || ((modified_count res =? 0)%Z && db_fault env (S n))
     then Raise (HTTPException 500 "Error saving feedback")
     else Ret (VDict [("message", VStr "Feedback recorded successfully")])) /\
  inserts_of (issued_since w (snd run)) =
    (if db_fault env n then []
     else if (modified_count res =? 0)%Z then [FeedbackRequest_dict r]
     else []).
Proof.
  intros n res run. subst n res run.
  unfold feedback_endpoint, bind, try_except, logger_info, emit.
  rewrite save_feedback_run. cbn [docs db_log journal ticks stream].
  unfold issued_since.
  destruct (db_fault env (List.length (db_log w))); cbn.
  - rewrite skipn_length_app. split; reflexivity.
  - destruct (modified_count _ =? 0)%Z; cbn.
    + destruct (db_fault env (S (List.length (db_log w)))); cbn;
        rewrite skipn_length_app; split; reflexivity.
    + rewrite skipn_length_app. split; reflexivity.
Qed.

(** C4 fails as stated: the entry for [m1] is in the store, the driver
    fails the update and would not have failed an insert; the caller gets
    the error all the same, and no insert was attempted. *)
Lemma feedback_endpoint_update_failure_surfaces :
  let run := feedback_endpoint env_second_op_fails feedback_m1 w_logged in
  db_fault env_second_op_fails (List.length (db_log w_logged)) = true /\
  db_fault env_second_op_fails (S (List.length (db_log w_logged))) = false /\
  issued_since w_logged (snd run)
    = [OpUpdate (feedback_filter feedback_m1) (feedback_set feedback_m1)] /\
  fst run = Raise (HTTPException 500 "Error saving feedback").
Proof. repeat split; reflexivity. Qed.

(** C3: the entry for [m1] is in the store and the same feedback is
    submitted twice.  The first call updates the entry and issues no
    insert.  The second call matches the same entry, finds nothing to
    change, reads the modified count of 0 as a missing document and inserts
    the request: two documents now carry [m1]. *)
Theorem save_feedback_twice_duplicates :
  let data := FeedbackRequest_dict feedback_m1 in
  let run1 := save_feedback env_ok data w_logged in
  let run2 := save_feedback env_ok data (snd run1) in
  List.length (entries_for "m1" (docs w_logged)) = 1%nat /\
  fst run1 = Ret tt /\
  inserts_of (issued_since w_logged (snd run1)) = [] /\
  List.length (entries_for "m1" (docs (snd run1))) = 1%nat /\
  fst run2 = Ret tt /\
  update_first (feedback_filter feedback_m1) (feedback_set feedback_m1)
               (docs (snd run1))
    = (docs (snd run1), mkUpdateResult 1 0) /\
  inserts_of (issued_since (snd run1) (snd run2)) = [data] /\
  docs (snd run2) = docs (snd run1) ++ [data] /\
  List.length (entries_for "m1" (docs (snd run2))) = 2%nat.
Proof. repeat split; reflexivity. Qed.

(** C5: the store holds exactly one entry for [m1], which already carries
    the feedback being submitted.  [save_feedback] matches it, modifies
    nothing, and inserts the request as a second document for [m1], after
    warning that no document was found. *)
Theorem save_feedback_unchanged_entry_inserts :
  let data := FeedbackRequest_dict feedback_m1 in
  let run := save_feedback env_ok data w_reconciled in
  List.length (entries_for "m1" (docs w_reconciled)) = 1%nat /\
  update_first (feedback_filter feedback_m1) (feedback_set feedback_m1)
               (docs w_reconciled)
    = (docs w_reconciled, mkUpdateResult 1 0) /\
  fst run = Ret tt /\
  journal (snd run) = [no_document_warning feedback_m1] /\
  inserts_of (issued_since w_reconciled (snd run)) = [data] /\
  List.length (entries_for "m1" (docs (snd run))) = 2%nat.
Proof. repeat split; reflexivity. Qed.

(** ** Start-up *)

Module StartupFacts.

Ltac each_byte a := destruct a as [[|] [|] [|] [|] [|] [|] [|] [|]].


Lemma replace_space_app (x y : string) :
  replace_space (x ++ y) = (replace_space x ++ replace_space y)%string.
Proof. induction x as [| a x IH]; simpl; [reflexivity | now rewrite IH]. Qed.

Lemma replace_space_quoted_byte a :
  replace_space (if always_safe a || is_space a then String a EmptyString
                 else percent_encode a) = plus_encode a.
Proof. each_byte a; reflexivity. Qed.

Lemma quote_no_space_byte a :
  is_space a = false ->
  (if always_safe a || false then String a EmptyString else percent_encode a)
  = plus_encode a.
Proof. each_byte a; intros H; try reflexivity; discriminate H. Qed.

(** Both branches of [quote_plus] come to the same encoding, byte by
    byte. *)
Lemma quote_plus_bytewise s : quote_plus s = plus_encode_all s.
Proof.
  unfold quote_plus. destruct (has_space s) eqn:Hs.
  - clear Hs. induction s as [| a r IH]; [reflexivity |].
    cbn [quote plus_encode_all].
    now rewrite replace_space_app, replace_space_quoted_byte, IH.
  - induction s as [| a r IH]; [reflexivity |].
    cbn [has_space] in Hs. apply orb_false_elim in Hs as [Ha Hr].
    cbn [quote plus_encode_all].
    now rewrite (quote_no_space_byte _ Ha), (IH Hr).
Qed.



Lemma unquote_plus_byte a rest :
  unquote_plus (plus_encode a ++ rest) = String a (unquote_plus rest).
Proof. each_byte a; reflexivity. Qed.

End StartupFacts.
Import StartupFacts.

(** X16: encoding a credential loses nothing: read back, with [+] as a space
    and [%XX] as a byte, the text [quote_plus] returns is the credential
    itself.  In particular two credentials never share an encoding. *)
Theorem quote_plus_round_trip s : unquote_plus (quote_plus s) = s.
Proof.
  rewrite quote_plus_bytewise.
  induction s as [| a r IH]; [reflexivity |].
  cbn [plus_encode_all]. now rewrite unquote_plus_byte, IH.
Qed.



(** ** The chat pipeline on an arbitrary dictionary *)

Module AnyDictFacts.

(** The [try] block ends in one of three ways: the entry is stored and the
    answer yielded; the insert was issued and failed; or an exception was
    raised before anything was done.  Only with all six keys present does
    it get as far as the insert. *)
Lemma process_message_try_cases env data w :
  let run := process_message_try env data w in
  (exists v entry,
      run = (Ret tt,
             mkWorld (docs w ++ [entry]) (db_log w ++ [OpInsert entry])
               (journal w ++ [Print "saving the logs.."; Print "logs saved!"])
               (S (S (ticks w))) (stream w ++ [v])) /\
      forallb (fun k => has_key k data) chat_keys = true) \/
  (exists entry,
      run = (Raise PyMongoError,
             mkWorld (docs w) (db_log w ++ [OpInsert entry])
               (journal w ++ [Print "saving the logs.."])
               (S (S (ticks w))) (stream w)) /\
      forallb (fun k => has_key k data) chat_keys = true) \/
  (exists e, run = (Raise e, w)).
Proof.
  intros run; subst run.
  unfold process_message_try, bind, getitem, has_key, chat_keys.
  cbn [forallb].
  destruct (lookup "question" data) as [q |] eqn:Hq;
    [| right; right; eexists; reflexivity].
  cbn -[llm_input query_azure_endpoint].
  destruct (query_azure_endpoint env (llm_input q) w) as [[resp | e] w1] eqn:H;
    pose proof (query_azure_endpoint_world _ _ _ _ _ H) as ->;
    [| right; right; eexists; reflexivity].
  destruct resp as [| | | | | | | | body];
    try (right; right; eexists; reflexivity).
  assert (Hget : exists full, py_get (VDict body) "output" (VStr EmptyString) w
                              = (Ret full, w)).
  { unfold py_get. destruct (lookup "output" body); eexists; reflexivity. }
  destruct Hget as [full ->].
  destruct (lookup "userId" data) eqn:H1;
    [| right; right; eexists; reflexivity].
  destruct (lookup "userName" data) eqn:H2;
    [| right; right; eexists; reflexivity].
  destruct (lookup "conversationId" data) eqn:H3;
    [| right; right; eexists; reflexivity].
  destruct (lookup "messageId" data) eqn:H4;
    [| right; right; eexists; reflexivity].
  destruct (lookup "questionTimestamp" data) eqn:H5;
    [| right; right; eexists; reflexivity].
  cbn. unfold insert_one, issue. cbn.
  destruct (db_fault env (List.length (db_log w))); cbn.
  - right; left. eexists. split; reflexivity.
  - left. eexists; eexists. rewrite snoc2. split; reflexivity.
Qed.

End AnyDictFacts.
Import AnyDictFacts.

(** X1: whatever dictionary it is given, complete or not, [process_message]
    raises nothing and yields exactly one chunk.  On the collection it is
    append-only: it issues no operation or one insert, never an update, and
    the documents afterwards are those before, followed by at most one new
    entry. *)
Theorem process_message_any_dict env data w :
  let run := process_message env data w in
  fst run = Ret tt /\
  List.length (yielded_since w (snd run)) = 1%nat /\
  (issued_since w (snd run) = [] \/
   exists entry, issued_since w (snd run) = [OpInsert entry]) /\
  (docs (snd run) = docs w \/ exists entry, docs (snd run) = docs w ++ [entry]).
Proof.
  intros run; subst run. unfold process_message, try_except.
  destruct (process_message_try_cases env data w)
    as [[v [entry [-> _]]] | [[entry [-> _]] | [e ->]]];
    try rewrite process_message_except_run;
    unfold yielded_since, issued_since; cbn [fst snd docs db_log stream];
    rewrite ?skipn_length_app, ?skipn_all;
    repeat split; eauto.
Qed.

(** X2: when one of the six keys it reads is missing, [process_message] issues
    nothing to the collection and yields one of the two fallback texts,
    never an answer of the provider. *)
Theorem process_message_missing_key env data w k :
  In k chat_keys ->
  lookup k data = None ->
  let run := process_message env data w in
  fst run = Ret tt /\
  issued_since w (snd run) = [] /\
  docs (snd run) = docs w /\
  exists v, yielded_since w (snd run) = [v] /\ is_fallback v = true.
Proof.
  intros Hk Hnone run; subst run. unfold process_message, try_except.
  assert (Hmiss : forallb (fun k => has_key k data) chat_keys = false).
  { apply not_true_is_false. intros Hall.
    rewrite forallb_forall in Hall. specialize (Hall k Hk).
    unfold has_key in Hall. rewrite Hnone in Hall. discriminate Hall. }
  destruct (process_message_try_cases env data w)
    as [[v [entry [_ Hall]]] | [[entry [_ Hall]] | [e ->]]];
    try congruence.
  rewrite process_message_except_run.
  unfold yielded_since, issued_since; cbn [fst snd docs db_log stream].
  rewrite skipn_length_app, skipn_all. repeat split.
  eexists. split; [reflexivity |].
  destruct (isinstance_HTTPError e); reflexivity.
Qed.

Lemma process_message_missing_key_witness :
  In "userId" chat_keys /\
  lookup "userId" [("question", VStr "What is X?")] = None /\
  let run := process_message env_ok [("question", VStr "What is X?")] w0 in
  fst run = Ret tt /\
  issued_since w0 (snd run) = [] /\
  docs (snd run) = docs w0 /\
  exists v, yielded_since w0 (snd run) = [v] /\ is_fallback v = true.
Proof.
  split; [simpl; tauto |]. split; [reflexivity |].
  apply (process_message_missing_key
           env_ok [("question", VStr "What is X?")] w0 "userId");
    [simpl; tauto | reflexivity].
Defined.

(** The provider call, read off the reply of the provider. *)
Lemma query_azure_endpoint_by_reply env data w :
  query_azure_endpoint env data w =
  (match provider env AZURE_ENDPOINT (azure_headers env) data with
   | PostRaises => Raise TransportError
   | Rejected status => Raise (HTTPStatusError status)
   | Accepted None => Raise JSONDecodeError
   | Accepted (Some body) => Ret body
   end, w).
Proof.
  unfold query_azure_endpoint, azure_headers.
  destruct (provider env _ _ data) as [| status | [body |]]; reflexivity.
Qed.

(** The case analysis on the reply of the provider and on the fate of the
    insert, each case closed by the run lemma that covers it. *)
Ltac by_reply_cases env r w :=
  let H := fresh "H" in
  let F := fresh "F" in
  pose proof (query_azure_endpoint_by_reply env
                (llm_input (VStr (question r))) w) as H;
  unfold yielded_since;
  destruct (provider env AZURE_ENDPOINT (azure_headers env)
              (llm_input (VStr (question r)))) as [| ? | [[| | | | | | | | ?] |]];
  try (rewrite (process_message_provider_raises _ _ _ _ _ H),
         process_message_except_run; cbn; now rewrite skipn_length_app);
  try (rewrite (process_message_not_object _ _ _ _ _ H)
         by (intros; discriminate);
       rewrite process_message_except_run; cbn;
       now rewrite skipn_length_app);
  destruct (db_fault env (List.length (db_log w))) eqn:F;
  [ rewrite (process_message_insert_fails _ _ _ _ _ H F)
  | rewrite (process_message_logged _ _ _ _ _ H F) ];
  cbn; now rewrite skipn_length_app.

(** The chunk yielded for a valid request, case by case on the reply. *)
Lemma process_message_chunk env r w :
  yielded_since w (snd (process_message env (ChatRequest_dict r) w))
  = [chunk_for (provider env AZURE_ENDPOINT (azure_headers env)
                  (llm_input (VStr (question r))))
               (db_fault env (List.length (db_log w)))].
Proof. by_reply_cases env r w. Qed.

(** X3: for a valid request the one chunk yielded is decided by the reply of
    the provider and by the fate of the insert: the first fallback text
    when the call raises or the status is rejected; the second when the
    body is not JSON, is JSON but not an object, or when the insert fails;
    otherwise the [output] of the object, or the empty string without
    one. *)
Theorem process_message_by_reply env r w :
  let reply := provider env AZURE_ENDPOINT (azure_headers env)
                 (llm_input (VStr (question r))) in
  let run := process_message env (ChatRequest_dict r) w in
  yielded_since w (snd run)
  = [chunk_for reply (db_fault env (List.length (db_log w)))].
Proof.
  intros reply run. subst reply run.
  by_reply_cases env r w.
Qed.

(** ** The feedback reconciler on the whole collection *)

Module ReconcilerFacts.
Import PyValFacts.

Section UpdateFirstMore.
Variables flt fields : dict.

Lemma update_first_length ds :
  List.length (fst (update_first flt fields ds)) = List.length ds.
Proof.
  induction ds as [| d r IH]; simpl; [reflexivity |].
  destruct (matches flt d); simpl; [reflexivity |].
  destruct (update_first flt fields r) as [r' res]; simpl in *.
  now rewrite IH.
Qed.

(** Where nothing passes the filter, nothing is matched or changed. *)
Lemma update_first_no_match ds :
  filter (matches flt) ds = [] ->
  update_first flt fields ds = (ds, mkUpdateResult 0 0).
Proof.
  induction ds as [| d r IH]; simpl; [reflexivity |].
  destruct (matches flt d); [discriminate |].
  intros H. now rewrite (IH H).
Qed.

(** A prefix in which nothing passes the filter is stepped over. *)
Lemma update_first_skip pre rest :
  filter (matches flt) pre = [] ->
  update_first flt fields (pre ++ rest)
  = (pre ++ fst (update_first flt fields rest),
     snd (update_first flt fields rest)).
Proof.
  induction pre as [| d r IH]; simpl.
  - intros _. now destruct (update_first flt fields rest).
  - destruct (matches flt d); [discriminate |].
    intros H. now rewrite (IH H).
Qed.

Hypothesis set_keeps_match :
  forall d, matches flt (apply_set fields d) = matches flt d.

(** The documents that do not pass the filter are left as they are. *)
Lemma update_first_others ds :
  others flt (fst (update_first flt fields ds)) = others flt ds.
Proof.
  unfold others.
  induction ds as [| d r IH]; simpl; [reflexivity |].
  destruct (matches flt d) eqn:Hm; simpl.
  - now rewrite set_keeps_match, Hm.
  - destruct (update_first flt fields r) as [r' res]; simpl in *.
    now rewrite Hm, IH.
Qed.
End UpdateFirstMore.

Lemma lookup_apply_set_feedback_fields r d :
  let d' := apply_set (feedback_set r) d in
  lookup "feedback" d' = Some (VStr (fb_feedback r)) /\
  lookup "questionTimestamp" d' = Some (VDatetime (fb_questionTimestamp r)) /\
  lookup "answerTimestamp" d' = Some (VDatetime (fb_answerTimestamp r)).
Proof.
  unfold apply_set, feedback_set; simpl. repeat split.
  - rewrite !lookup_assign_other by discriminate. apply lookup_assign_same.
  - rewrite lookup_assign_other by discriminate. apply lookup_assign_same.
  - apply lookup_assign_same.
Qed.

Lemma lookup_apply_set_feedback_other r d k :
  ~ In k ["feedback"; "questionTimestamp"; "answerTimestamp"] ->
  lookup k (apply_set (feedback_set r) d) = lookup k d.
Proof.
  intros N. unfold apply_set, feedback_set; simpl.
  rewrite !lookup_assign_other; [reflexivity | | |];
    intros ->; apply N; simpl; tauto.
Qed.

Lemma others_data r ds :
  others (feedback_filter r) (ds ++ [FeedbackRequest_dict r])
  = others (feedback_filter r) ds.
Proof.
  unfold others. rewrite filter_app. cbn [filter].
  rewrite feedback_data_matches. cbn. apply app_nil_r.
Qed.

(** [save_feedback] leaves every document that does not carry the message
    identifier as it was. *)
Lemma save_feedback_others env r w :
  others (feedback_filter r)
    (docs (snd (save_feedback env (FeedbackRequest_dict r) w)))
  = others (feedback_filter r) (docs w).
Proof.
  rewrite save_feedback_run. cbn zeta.
  destruct (db_fault env (List.length (db_log w))); [reflexivity |].
  destruct (modified_count _ =? 0)%Z;
    [destruct (db_fault env (S (List.length (db_log w)))) |];
    cbn [snd docs]; rewrite ?others_data;
    apply update_first_others, feedback_set_keeps_match.
Qed.

End ReconcilerFacts.
Import ReconcilerFacts.

(** X6: on a valid request [save_feedback] always begins with the update and
    issues an insert, of the request itself, only after it.  Whatever the
    driver does, the collection never loses a document and grows by at most
    one, and the documents that do not carry the message identifier are
    left exactly as they were. *)
Theorem save_feedback_touches_one_message env r w :
  let data := FeedbackRequest_dict r in
  let upd := OpUpdate (feedback_filter r) (feedback_set r) in
  let run := save_feedback env data w in
  (issued_since w (snd run) = [upd] \/
   issued_since w (snd run) = [upd; OpInsert data]) /\
  (List.length (docs (snd run)) = List.length (docs w) \/
   List.length (docs (snd run)) = S (List.length (docs w))) /\
  others (feedback_filter r) (docs (snd run))
  = others (feedback_filter r) (docs w).
Proof.
  intros data upd run. subst data upd run.
  split; [| split; [| apply save_feedback_others]].
  - rewrite save_feedback_run. cbn zeta. unfold issued_since.
    destruct (db_fault env (List.length (db_log w)));
      [cbn [snd db_log]; rewrite skipn_length_app; auto |].
    destruct (modified_count _ =? 0)%Z;
      [destruct (db_fault env (S (List.length (db_log w)))) |];
      cbn [snd db_log]; rewrite skipn_length_app; auto.
  - rewrite save_feedback_run. cbn zeta.
    destruct (db_fault env (List.length (db_log w)));
      [cbn [snd docs]; auto |].
    destruct (modified_count _ =? 0)%Z;
      [destruct (db_fault env (S (List.length (db_log w)))) |];
      cbn [snd docs];
      rewrite ?length_app, update_first_length, ?Nat.add_1_r; auto.
Qed.

(** X7: when no document carries the message identifier and the driver fails
    neither operation, [save_feedback] warns that no document was found and
    appends the request itself, once, as a new document; nothing else
    changes. *)
Theorem save_feedback_not_found env r w :
  entries_for (fb_messageId r) (docs w) = [] ->
  db_fault env (List.length (db_log w)) = false ->
  db_fault env (S (List.length (db_log w))) = false ->
  let data := FeedbackRequest_dict r in
  let run := save_feedback env data w in
  fst run = Ret tt /\
  docs (snd run) = docs w ++ [data] /\
  issued_since w (snd run)
    = [OpUpdate (feedback_filter r) (feedback_set r); OpInsert data] /\
  journal (snd run) = journal w ++ [no_document_warning r] /\
  entries_for (fb_messageId r) (docs (snd run)) = [data].
Proof.
  intros Hnone F1 F2 data run. subst data run.
  assert (Hn : filter (matches (feedback_filter r)) (docs w) = [])
    by exact Hnone.
  assert (Hd : entries_for (fb_messageId r)
                 (docs w ++ [FeedbackRequest_dict r])
               = [FeedbackRequest_dict r]).
  { unfold entries_for in *. rewrite filter_app, Hnone. cbn [filter].
    fold (feedback_filter r). now rewrite feedback_data_matches. }
  rewrite save_feedback_run. cbn zeta. rewrite F1, F2.
  rewrite (update_first_no_match _ _ _ Hn).
  cbn [fst snd modified_count Z.eqb docs db_log journal].
  unfold issued_since. cbn [db_log]. rewrite skipn_length_app. auto.
Qed.

Lemma save_feedback_not_found_witness :
  entries_for (fb_messageId feedback_m1) (docs w0) = [] /\
  db_fault env_ok (List.length (db_log w0)) = false /\
  db_fault env_ok (S (List.length (db_log w0))) = false /\
  let data := FeedbackRequest_dict feedback_m1 in
  let run := save_feedback env_ok data w0 in
  fst run = Ret tt /\
  docs (snd run) = docs w0 ++ [data] /\
  issued_since w0 (snd run)
    = [OpUpdate (feedback_filter feedback_m1) (feedback_set feedback_m1);
       OpInsert data] /\
  journal (snd run) = journal w0 ++ [no_document_warning feedback_m1] /\
  entries_for (fb_messageId feedback_m1) (docs (snd run)) = [data].
Proof.
  split; [reflexivity |]. split; [reflexivity |]. split; [reflexivity |].
  apply (save_feedback_not_found env_ok feedback_m1 w0); reflexivity.
Defined.

(** X8: when a dictionary lacks one of the four keys [save_feedback] reads, the
    call raises [KeyError] for a missing key before anything is issued to
    the collection: the state is left exactly as it was. *)
Theorem save_feedback_missing_key env data w k :
  In k feedback_keys ->
  lookup k data = None ->
  let run := save_feedback env data w in
  snd run = w /\
  exists k0, fst run = Raise (KeyError k0) /\ lookup k0 data = None.
Proof.
  intros Hk Hnone run. subst run.
  unfold save_feedback, bind, getitem.
  destruct (lookup "messageId" data) eqn:H1;
    [| split; [reflexivity | eexists; split; [reflexivity | assumption]]].
  destruct (lookup "feedback" data) eqn:H2;
    [| split; [reflexivity | eexists; split; [reflexivity | assumption]]].
  destruct (lookup "questionTimestamp" data) eqn:H3;
    [| split; [reflexivity | eexists; split; [reflexivity | assumption]]].
  destruct (lookup "answerTimestamp" data) eqn:H4;
    [| split; [reflexivity | eexists; split; [reflexivity | assumption]]].
  exfalso. simpl in Hk.
  destruct Hk as [<- | [<- | [<- | [<- | []]]]]; congruence.
Qed.

Lemma save_feedback_missing_key_witness :
  In "feedback" feedback_keys /\
  lookup "feedback" [("messageId", VStr "m1")] = None /\
  let run := save_feedback env_ok [("messageId", VStr "m1")] w_logged in
  snd run = w_logged /\
  exists k0, fst run = Raise (KeyError k0) /\
             lookup k0 [("messageId", VStr "m1")] = None.
Proof.
  split; [simpl; tauto |]. split; [reflexivity |].
  apply (save_feedback_missing_key
           env_ok [("messageId", VStr "m1")] w_logged "feedback");
    [simpl; tauto | reflexivity].
Defined.

(** X9: when the update goes through, the first document carrying the message
    identifier, and only that one, receives the feedback and the two
    timestamps of the request; every other field of it keeps its value, and
    the documents before and after it are untouched.  At most the request
    itself is appended behind them. *)
Theorem save_feedback_sets_fields env r w pre d post :
  docs w = pre ++ d :: post ->
  entries_for (fb_messageId r) pre = [] ->
  matches (feedback_filter r) d = true ->
  db_fault env (List.length (db_log w)) = false ->
  let run := save_feedback env (FeedbackRequest_dict r) w in
  exists d' tail,
    docs (snd run) = pre ++ d' :: post ++ tail /\
    (tail = [] \/ tail = [FeedbackRequest_dict r]) /\
    lookup "feedback" d' = Some (VStr (fb_feedback r)) /\
    lookup "questionTimestamp" d'
      = Some (VDatetime (fb_questionTimestamp r)) /\
    lookup "answerTimestamp" d' = Some (VDatetime (fb_answerTimestamp r)) /\
    forall k,
      ~ In k ["feedback"; "questionTimestamp"; "answerTimestamp"] ->
      lookup k d' = lookup k d.
Proof.
  intros Hdocs Hpre Hm F run. subst run.
  assert (Hn : filter (matches (feedback_filter r)) pre = []) by exact Hpre.
  exists (apply_set (feedback_set r) d).
  destruct (lookup_apply_set_feedback_fields r d) as [L1 [L2 L3]].
  assert (Hrest : forall tail,
             (tail = [] \/ tail = [FeedbackRequest_dict r]) ->
             docs (snd (save_feedback env (FeedbackRequest_dict r) w))
             = pre ++ apply_set (feedback_set r) d :: post ++ tail ->
             exists tail0,
               docs (snd (save_feedback env (FeedbackRequest_dict r) w))
               = pre ++ apply_set (feedback_set r) d :: post ++ tail0 /\
               (tail0 = [] \/ tail0 = [FeedbackRequest_dict r]) /\
               lookup "feedback" (apply_set (feedback_set r) d)
               = Some (VStr (fb_feedback r)) /\
               lookup "questionTimestamp" (apply_set (feedback_set r) d)
               = Some (VDatetime (fb_questionTimestamp r)) /\
               lookup "answerTimestamp" (apply_set (feedback_set r) d)
               = Some (VDatetime (fb_answerTimestamp r)) /\
               forall k,
                 ~ In k ["feedback"; "questionTimestamp"; "answerTimestamp"] ->
                 lookup k (apply_set (feedback_set r) d) = lookup k d).
  { intros tail Ht E. exists tail. repeat split; auto.
    intros k N. now apply lookup_apply_set_feedback_other. }
  rewrite save_feedback_run in *. cbn zeta in *. rewrite F in *.
  rewrite Hdocs, (update_first_skip _ _ _ _ Hn) in *.
  cbn [update_first] in *. rewrite Hm in *. cbn [fst snd modified_count] in *.
  destruct (dict_eqb (apply_set (feedback_set r) d) d) eqn:E.
  - cbn [Z.eqb] in *.
    destruct (db_fault env (S (List.length (db_log w))));
      cbn [snd docs] in *.
    + apply (Hrest []); [auto | now rewrite app_nil_r].
    + apply (Hrest [FeedbackRequest_dict r]); [auto |].
      now rewrite <- app_assoc.
  - cbn [Z.eqb snd docs] in *.
    apply (Hrest []); [auto | now rewrite app_nil_r].
Qed.

Lemma save_feedback_sets_fields_witness :
  docs w_logged
  = [] ++ chat_log_entry chat_m1 (VStr "X is Y") 2000 2001 :: [] /\
  entries_for (fb_messageId feedback_m1) [] = [] /\
  matches (feedback_filter feedback_m1)
          (chat_log_entry chat_m1 (VStr "X is Y") 2000 2001) = true /\
  db_fault env_ok (List.length (db_log w_logged)) = false /\
  let run := save_feedback env_ok (FeedbackRequest_dict feedback_m1) w_logged in
  exists d' tail,
    docs (snd run) = [] ++ d' :: [] ++ tail /\
    (tail = [] \/ tail = [FeedbackRequest_dict feedback_m1]) /\
    lookup "feedback" d' = Some (VStr (fb_feedback feedback_m1)) /\
    lookup "questionTimestamp" d'
      = Some (VDatetime (fb_questionTimestamp feedback_m1)) /\
    lookup "answerTimestamp" d'
      = Some (VDatetime (fb_answerTimestamp feedback_m1)) /\
    forall k,
      ~ In k ["feedback"; "questionTimestamp"; "answerTimestamp"] ->
      lookup k d'
      = lookup k (chat_log_entry chat_m1 (VStr "X is Y") 2000 2001).
Proof.
  split; [reflexivity |]. split; [reflexivity |]. split; [reflexivity |].
  split; [reflexivity |].
  apply (save_feedback_sets_fields env_ok feedback_m1 w_logged []
           (chat_log_entry chat_m1 (VStr "X is Y") 2000 2001) []);
    reflexivity.
Defined.

(** X10: A chat exchange followed by the first feedback on it, with a provider
    that answers and a driver that fails nothing, on a collection that held
    nothing for the message: the feedback call issues the update alone, and
    the collection ends with exactly one entry for the message, the logged
    one, now carrying the feedback next to the question and the answer. *)
Theorem feedback_after_chat env rc rf w body w1 :
  query_azure_endpoint env (llm_input (VStr (question rc))) w
    = (Ret (VDict body), w1) ->
  db_fault env (List.length (db_log w)) = false ->
  db_fault env (S (List.length (db_log w))) = false ->
  messageId rc = fb_messageId rf ->
  entries_for (fb_messageId rf) (docs w) = [] ->
  let w_chat := snd (process_message env (ChatRequest_dict rc) w) in
  let run := save_feedback env (FeedbackRequest_dict rf) w_chat in
  fst run = Ret tt /\
  issued_since w_chat (snd run)
    = [OpUpdate (feedback_filter rf) (feedback_set rf)] /\
  exists entry,
    docs (snd run) = docs w ++ [entry] /\
    entries_for (fb_messageId rf) (docs (snd run)) = [entry] /\
    lookup "feedback" entry = Some (VStr (fb_feedback rf)) /\
    lookup "question" entry = Some (VStr (question rc)) /\
    lookup "answer" entry = Some (output_or_empty body).
Proof.
  intros H F1 F2 Hid Hnone w_chat run. subst run w_chat.
  assert (Hn : filter (matches (feedback_filter rf)) (docs w) = [])
    by exact Hnone.
  rewrite (process_message_logged _ _ _ _ _ H F1). cbn [snd].
  set (logged := chat_log_entry rc _ _ _).
  assert (Hmatch : matches (feedback_filter rf) logged = true).
  { unfold matches, feedback_filter, logged. cbn.
    now rewrite Hid, String.eqb_refl. }
  assert (HU : update_first (feedback_filter rf) (feedback_set rf) [logged]
               = ([apply_set (feedback_set rf) logged], mkUpdateResult 1 1)).
  { cbn [update_first]. rewrite Hmatch.
    destruct (dict_eqb (apply_set (feedback_set rf) logged) logged) eqn:E;
      [| reflexivity].
    apply PyValFacts.dict_eqb_eq in E.
    apply (f_equal (lookup "feedback")) in E. discriminate E. }
  rewrite save_feedback_run. cbn zeta. cbn [docs db_log journal ticks stream].
  rewrite length_app, Nat.add_1_r, F2.
  rewrite (update_first_skip _ _ _ _ Hn), HU.
  cbn [fst snd modified_count Z.eqb docs db_log].
  unfold issued_since. cbn [db_log]. rewrite skipn_length_app.
  split; [reflexivity |]. split; [reflexivity |].
  exists (apply_set (feedback_set rf) logged).
  split; [reflexivity |]. split.
  - unfold entries_for in *. rewrite filter_app, Hnone. cbn [filter app].
    fold (feedback_filter rf).
    now rewrite feedback_set_keeps_match, Hmatch.
  - repeat split; reflexivity.
Qed.

Lemma feedback_after_chat_witness :
  query_azure_endpoint env_ok (llm_input (VStr (question chat_m1))) w0
    = (Ret (VDict [("output", VStr "X is Y")]), w0) /\
  db_fault env_ok (List.length (db_log w0)) = false /\
  db_fault env_ok (S (List.length (db_log w0))) = false /\
  messageId chat_m1 = fb_messageId feedback_m1 /\
  entries_for (fb_messageId feedback_m1) (docs w0) = [] /\
  let w_chat := snd (process_message env_ok (ChatRequest_dict chat_m1) w0) in
  let run := save_feedback env_ok (FeedbackRequest_dict feedback_m1) w_chat in
  fst run = Ret tt /\
  issued_since w_chat (snd run)
    = [OpUpdate (feedback_filter feedback_m1) (feedback_set feedback_m1)] /\
  exists entry,
    docs (snd run) = docs w0 ++ [entry] /\
    entries_for (fb_messageId feedback_m1) (docs (snd run)) = [entry] /\
    lookup "feedback" entry = Some (VStr (fb_feedback feedback_m1)) /\
    lookup "question" entry = Some (VStr (question chat_m1)) /\
    lookup "answer" entry
      = Some (output_or_empty [("output", VStr "X is Y")]).
Proof.
  split; [reflexivity |]. split; [reflexivity |]. split; [reflexivity |].
  split; [reflexivity |]. split; [reflexivity |].
  apply (feedback_after_chat env_ok chat_m1 feedback_m1 w0
           [("output", VStr "X is Y")] w0); reflexivity.
Defined.

(** X15: the document [test_connection] leaves in the collection carries no
    message identifier, so no feedback ever matches it: once there, it is
    still there, unchanged, after any [save_feedback]. *)
Theorem test_document_survives_feedback env r w :
  In TEST_DOCUMENT (docs w) ->
  matches (feedback_filter r) TEST_DOCUMENT = false /\
  In TEST_DOCUMENT (docs (snd (save_feedback env (FeedbackRequest_dict r) w))).
Proof.
  intros Hin. split; [reflexivity |].
  assert (Ho : In TEST_DOCUMENT (others (feedback_filter r) (docs w))).
  { unfold others. apply filter_In. split; [exact Hin | reflexivity]. }
  rewrite <- (save_feedback_others env r w) in Ho.
  unfold others in Ho. apply filter_In in Ho. exact (proj1 Ho).
Qed.

Lemma test_document_survives_feedback_witness :
  let w := snd (test_connection env_ok true (fun _ => "down") "uri" w_logged) in
  In TEST_DOCUMENT (docs w) /\
  matches (feedback_filter feedback_m1) TEST_DOCUMENT = false /\
  In TEST_DOCUMENT
     (docs (snd (save_feedback env_ok (FeedbackRequest_dict feedback_m1) w))).
Proof.
  intros w. split; [subst w; simpl; tauto |].
  apply (test_document_survives_feedback env_ok feedback_m1 w).
  subst w; simpl; tauto.
Defined.

Lemma save_feedback_repeat_inserts_witness :
  (forall n, db_fault env_ok n = false) /\
  let data := FeedbackRequest_dict feedback_m1 in
  let w1 := snd (save_feedback env_ok data w_logged) in
  save_feedback env_ok data w1 =
  (Ret tt,
   mkWorld (docs w1 ++ [data])
     (db_log w1 ++ [OpUpdate (feedback_filter feedback_m1)
                      (feedback_set feedback_m1);
                    OpInsert data])
     (journal w1 ++ [no_document_warning feedback_m1]) (ticks w1) (stream w1)).
Proof.
  split; [intros n; reflexivity |].
  apply (save_feedback_repeat_inserts env_ok feedback_m1 w_logged).
  intros n; reflexivity.
Defined.

Lemma save_feedback_modifies_no_insert_witness :
  db_fault env_ok (List.length (db_log w_logged)) = false /\
  modified_count
    (snd (update_first (feedback_filter feedback_m1) (feedback_set feedback_m1)
            (docs w_logged))) <> 0%Z /\
  let run := save_feedback env_ok (FeedbackRequest_dict feedback_m1) w_logged in
  fst run = Ret tt /\
  inserts_of (skipn (List.length (db_log w_logged)) (db_log (snd run))) = [] /\
  List.length (entries_for (fb_messageId feedback_m1) (docs (snd run)))
  = List.length (entries_for (fb_messageId feedback_m1) (docs w_logged)).
Proof.
  split; [reflexivity |]. split; [discriminate |].
  apply (save_feedback_modifies_no_insert env_ok feedback_m1 w_logged);
    [reflexivity | discriminate].
Defined.


